(** * MAVBot: the Slack event router and its handlers

    A shallow embedding of [cmd/start.go] of MAVBot (package [cmd]): the
    socket-mode receive loop of [startCmd], and the handlers
    [handleEventMessage], [handleAppMentionEvent], [handleSlashCommand],
    [handleHelloCommand], [handleIsArticleGood] and
    [handleInteractiveEvent].

    Go strings are byte strings ([String.string]); a rune is an [int32],
    here a [Z].  The parts of the Go standard library and of slack-go that
    the handlers call are embedded first, under the names of their Go
    packages. *)

From Stdlib Require Import ZArith Lia List Bool Ascii String Zbitwise.
Import ListNotations.

Local Open Scope string_scope.
Local Open Scope Z_scope.

(** ** Bytes *)

Definition byte := ascii.

Definition Z_of_byte (b : byte) : Z := Z.of_N (N_of_ascii b).

(** The conversion [byte(x)] of an integer: the low eight bits. *)
Definition byte_of_Z (x : Z) : byte := ascii_of_N (Z.to_N (x mod 256)).

(** [s[n:]] for [n <= len(s)]. *)
Fixpoint skip (n : nat) (s : string) : string :=
  match n, s with
  | O, _ => s
  | S _, EmptyString => EmptyString
  | S n', String _ s' => skip n' s'
  end.

(** ** Package [unicode/utf8] *)

Module utf8.

Definition RuneError : Z := 0xFFFD.
Definition RuneSelf : Z := 0x80.
Definition MaxRune : Z := 0x10FFFF.

Definition surrogateMin : Z := 0xD800.
Definition surrogateMax : Z := 0xDFFF.

Definition tx : Z := 0x80.
Definition t2 : Z := 0xC0.
Definition t3 : Z := 0xE0.
Definition t4 : Z := 0xF0.

Definition maskx : Z := 0x3F.
Definition mask2 : Z := 0x1F.
Definition mask3 : Z := 0x0F.
Definition mask4 : Z := 0x07.

Definition rune1Max : Z := 0x7F.
Definition rune2Max : Z := 0x7FF.
Definition rune3Max : Z := 0xFFFF.

Definition locb : Z := 0x80.
Definition hicb : Z := 0xBF.

(** The codes of the table [first]: the low three bits are the size of
    the sequence, the high four bits index [acceptRanges]. *)
Definition xx : Z := 0xF1.
Definition as_ : Z := 0xF0.
Definition s1 : Z := 0x02.
Definition s2 : Z := 0x13.
Definition s3 : Z := 0x03.
Definition s4 : Z := 0x23.
Definition s5 : Z := 0x34.
Definition s6 : Z := 0x04.
Definition s7 : Z := 0x44.

(** [first[b]]: information about the first byte of a sequence. *)
Definition first (b : Z) : Z :=
  if b <? 0x80 then as_
  else if b <? 0xC2 then xx
  else if b <? 0xE0 then s1
  else if b =? 0xE0 then s2
  else if b <? 0xED then s3
  else if b =? 0xED then s4
  else if b <? 0xF0 then s3
  else if b =? 0xF0 then s5
  else if b <? 0xF4 then s6
  else if b =? 0xF4 then s7
  else xx.

(** [acceptRanges[i]]: the range of a valid second byte. *)
Definition acceptRanges (i : Z) : Z * Z :=
  if i =? 0 then (locb, hicb)
  else if i =? 1 then (0xA0, hicb)
  else if i =? 2 then (locb, 0x9F)
  else if i =? 3 then (0x90, hicb)
  else if i =? 4 then (locb, 0x8F)
  else (0, 0).

(** The tail of [DecodeRuneInString], once the first byte announced a
    sequence of [sz] bytes whose second byte lies in [accept]. *)
Definition decodeSequence (sz : nat) (accept : Z * Z) (s : string)
    : Z * nat :=
  if (String.length s <? sz)%nat then (RuneError, 1%nat)
  else
    match s with
    | String b0 (String b1 r1) =>
      if (Z_of_byte b1 <? fst accept) || (snd accept <? Z_of_byte b1)
      then (RuneError, 1%nat)
      else if (sz <=? 2)%nat then
        (Z.lor (Z.shiftl (Z.land (Z_of_byte b0) mask2) 6)
               (Z.land (Z_of_byte b1) maskx), 2%nat)
      else
        match r1 with
        | EmptyString => (RuneError, 1%nat)
        | String b2 r2 =>
          if (Z_of_byte b2 <? locb) || (hicb <? Z_of_byte b2)
          then (RuneError, 1%nat)
          else if (sz <=? 3)%nat then
            (Z.lor (Z.lor (Z.shiftl (Z.land (Z_of_byte b0) mask3) 12)
                          (Z.shiftl (Z.land (Z_of_byte b1) maskx) 6))
                   (Z.land (Z_of_byte b2) maskx), 3%nat)
          else
            match r2 with
            | EmptyString => (RuneError, 1%nat)
            | String b3 _ =>
              if (Z_of_byte b3 <? locb) || (hicb <? Z_of_byte b3)
              then (RuneError, 1%nat)
              else
                (Z.lor (Z.lor (Z.lor
                   (Z.shiftl (Z.land (Z_of_byte b0) mask4) 18)
                   (Z.shiftl (Z.land (Z_of_byte b1) maskx) 12))
                   (Z.shiftl (Z.land (Z_of_byte b2) maskx) 6))
                   (Z.land (Z_of_byte b3) maskx), 4%nat)
            end
        end
    | _ => (RuneError, 1%nat)
    end.

(** [utf8.DecodeRuneInString]: the first rune of [s] and its width in
    bytes; [(RuneError, 1)] on a byte that starts no valid encoding. *)
Definition DecodeRuneInString (s : string) : Z * nat :=
  match s with
  | EmptyString => (RuneError, 0%nat)
  | String b0 _ =>
    let x := first (Z_of_byte b0) in
    if as_ <=? x then
      (if x =? xx then RuneError else Z_of_byte b0, 1%nat)
    else
      decodeSequence (Z.to_nat (Z.land x 7)) (acceptRanges (Z.shiftr x 4)) s
  end.

(** The three-byte encoding, shared by the [fallthrough] of [RuneError]. *)
Definition encode3 (r : Z) : string :=
  String (byte_of_Z (Z.lor t3 (Z.shiftr r 12 mod 256)))
 (String (byte_of_Z (Z.lor tx (Z.land (Z.shiftr r 6 mod 256) maskx)))
 (String (byte_of_Z (Z.lor tx (Z.land (r mod 256) maskx))) EmptyString)).

(** [utf8.AppendRune] onto an empty buffer: the UTF-8 encoding of [r];
    a rune out of range or a surrogate is encoded as [RuneError]. *)
Definition AppendRune (r : Z) : string :=
  let i := r mod 2 ^ 32 in
  if i <=? rune1Max then String (byte_of_Z r) EmptyString
  else if i <=? rune2Max then
    String (byte_of_Z (Z.lor t2 (Z.shiftr r 6 mod 256)))
   (String (byte_of_Z (Z.lor tx (Z.land (r mod 256) maskx))) EmptyString)
  else if (MaxRune <? i) || ((surrogateMin <=? i) && (i <=? surrogateMax))
  then encode3 RuneError
  else if i <=? rune3Max then encode3 r
  else
    String (byte_of_Z (Z.lor t4 (Z.shiftr r 18 mod 256)))
   (String (byte_of_Z (Z.lor tx (Z.land (Z.shiftr r 12 mod 256) maskx)))
   (String (byte_of_Z (Z.lor tx (Z.land (Z.shiftr r 6 mod 256) maskx)))
   (String (byte_of_Z (Z.lor tx (Z.land (r mod 256) maskx))) EmptyString))).

End utf8.

(** ** Package [unicode] *)

Module unicode.

Definition MaxASCII : Z := 0x7F.

(** [unicode.ToLower].  [lowerCase] stands for [unicode.To(LowerCase, _)],
    the look-up in the table [unicode.CaseRanges] that Go uses above
    [MaxASCII]. *)
Definition ToLower (lowerCase : Z -> Z) (r : Z) : Z :=
  if r <=? MaxASCII then
    if (65 <=? r) && (r <=? 90) then r + (97 - 65) else r
  else lowerCase r.

End unicode.

(** ** Package [strings] *)

Module strings.

(** [strings.Index] by the naive scan: the byte offset of the first
    occurrence of [substr] in [s], or [-1]. *)
Fixpoint IndexFrom (i : Z) (s substr : string) : Z :=
  if String.prefix substr s then i
  else match s with
       | EmptyString => -1
       | String _ s' => IndexFrom (i + 1) s' substr
       end.

Definition Index (s substr : string) : Z := IndexFrom 0 s substr.

(** [strings.Contains]. *)
Definition Contains (s substr : string) : bool := 0 <=? Index s substr.

(** The result of [strings.Map], rune by rune as [range s] yields them:
    every rune, and [RuneError] for a byte that starts no valid encoding,
    is replaced by the encoding of its image, and dropped when the image
    is negative.  (Go copies the stretch of [s] that the mapping leaves
    alone instead of encoding it again; the bytes are the same.)  [fuel]
    bounds the number of runes. *)
Fixpoint MapLoop (fuel : nat) (mapping : Z -> Z) (s : string) : string :=
  match fuel with
  | O => EmptyString
  | S fuel' =>
    match s with
    | EmptyString => EmptyString
    | String _ _ =>
      let '(c, width) := utf8.DecodeRuneInString s in
      let r := mapping c in
      (if 0 <=? r then utf8.AppendRune r else EmptyString)
      ++ MapLoop fuel' mapping (skip width s)
    end
  end.

(** [strings.Map]. *)
Definition Map (mapping : Z -> Z) (s : string) : string :=
  MapLoop (String.length s) mapping s.

Definition isUpperByte (c : byte) : bool :=
  (65 <=? Z_of_byte c) && (Z_of_byte c <=? 90).

Fixpoint isASCII (s : string) : bool :=
  match s with
  | EmptyString => true
  | String c s' => (Z_of_byte c <? utf8.RuneSelf) && isASCII s'
  end.

(** [c += 'a' - 'A'] when [c] is an upper-case ASCII letter. *)
Definition lowerByte (c : byte) : byte :=
  if isUpperByte c then byte_of_Z (Z_of_byte c + (97 - 65)) else c.

(** The byte loop of the ASCII path of [ToLower]. *)
Fixpoint lowerASCII (s : string) : string :=
  match s with
  | EmptyString => EmptyString
  | String c s' => String (lowerByte c) (lowerASCII s')
  end.

(** [strings.ToLower]: a byte loop when [s] is ASCII only, and
    [Map(unicode.ToLower, s)] otherwise. *)
Definition ToLower (lowerCase : Z -> Z) (s : string) : string :=
  if isASCII s then lowerASCII s
  else Map (unicode.ToLower lowerCase) s.

End strings.

(** ** Package [errors] and [fmt] *)

(** Go's [error] values: the ones made by [errors.New] (and, seen from this
    program, whatever the Slack client returns), and the ones [fmt.Errorf]
    makes with the verb [%w], which keep the error they wrap. *)
Inductive error : Type :=
| errorString (s : string)
| wrapError (msg : string) (err : error).

Definition Error (e : error) : string :=
  match e with
  | errorString s => s
  | wrapError msg _ => msg
  end.

(** [x, err := f()]: either a value or a non-nil error. *)
Inductive result (T : Type) : Type :=
| Ok (v : T)
| Err (err : error).
Arguments Ok {T} v.
Arguments Err {T} err.

Module errors.
Definition New (text : string) : error := errorString text.
End errors.

Module fmt.

(** The flags that may stand between [%] and the verb and that leave the
    text of a string operand as it is under [%s] and [%v].  The flag [#],
    under which [%v] prints the operand in Go syntax, is not one of them:
    formats that use it are outside this model. *)
Definition isFlag (c : ascii) : bool :=
  (Ascii.eqb c "+" || Ascii.eqb c "-" || Ascii.eqb c " "
   || Ascii.eqb c "0")%bool.

(** The verbs under which a string operand is printed as it is; [%w] is
    one of them under [Errorf] only. *)
Definition printsOperand (wrap : bool) (c : ascii) : bool :=
  (Ascii.eqb c "s" || Ascii.eqb c "v" || (wrap && Ascii.eqb c "w"))%bool.

(** The report on operands that no verb consumed. *)
Fixpoint extraOperands (a : list string) : string :=
  match a with
  | [] => ""
  | [x] => "string=" ++ x
  | x :: a' => "string=" ++ x ++ ", " ++ extraOperands a'
  end.

(** The scan of [doPrintf] over the format, for string operands and
    formats without width or precision.  [inVerb] holds between a [%] and
    its verb.  A verb other than [%s] and [%v] is reported as fmt reports
    a verb its operand does not support; the verbs [%q] and [%x], which
    fmt does support on strings, and the flag [#] are outside this
    model. *)
Fixpoint doPrintf (wrap inVerb : bool) (format : string) (a : list string)
    : string :=
  match format with
  | EmptyString =>
    (if inVerb then "%!(NOVERB)" else "")
    ++ match a with
       | [] => ""
       | _ :: _ => "%!(EXTRA " ++ extraOperands a ++ ")"
       end
  | String c rest =>
    if inVerb then
      if isFlag c then doPrintf wrap true rest a
      else if Ascii.eqb c "%" then String "%" (doPrintf wrap false rest a)
      else
        match a with
        | [] => "%!" ++ String c "(MISSING)" ++ doPrintf wrap false rest []
        | x :: a' =>
          (if printsOperand wrap c then x
           else "%!" ++ String c "(string=" ++ x ++ ")")
          ++ doPrintf wrap false rest a'
        end
    else if Ascii.eqb c "%" then doPrintf wrap true rest a
    else String c (doPrintf wrap false rest a)
  end.

(** [fmt.Sprintf] on string operands. *)
Definition Sprintf (format : string) (a : list string) : string :=
  doPrintf false false format a.

(** The verb that consumes the one operand is [%w]: the scan of
    [doPrintf] again, up to the first verb that takes an operand.  A
    later [%w] finds no operand left and wraps nothing. *)
Fixpoint wrapsOperand (inVerb : bool) (format : string) : bool :=
  match format with
  | EmptyString => false
  | String c rest =>
    if inVerb then
      if isFlag c then wrapsOperand true rest
      else if Ascii.eqb c "%" then wrapsOperand false rest
      else Ascii.eqb c "w"
    else wrapsOperand (Ascii.eqb c "%") rest
  end.

(** [fmt.Errorf] with one operand, an error: the message is formatted
    with the error's text; the result wraps the error when [%w] consumed
    it, and is a plain error otherwise. *)
Definition Errorf (format : string) (err : error) : error :=
  let msg := doPrintf true false format [Error err] in
  if wrapsOperand false format then wrapError msg err else errorString msg.

End fmt.

(** The line feed that ends the formats of [log.Printf]. *)
Definition LF : string := String (ascii_of_nat 10) EmptyString.

(** ** Package [time] *)

Module time.

(** The wall clock of the host and the rendering of a [time.Time] under
    a layout; both belong to the Go runtime, not to this program. *)
Class Clock (World : Type) : Type := {
  Time : Type;
  Now : World -> Time * World;
  Format : Time -> string -> string
}.

End time.

(** The table behind [unicode.To(LowerCase, r)] for [r] above ASCII. *)
Class CaseTables : Type := { lowerCase : Z -> Z }.

(** ** Package [slack] (slack-go v0.12.3): the types the program touches *)

Module slack.

Record User : Type := { ID : string; Name : string }.

Record AttachmentField : Type := {
  Title : string;
  Value : string;
  Short : bool
}.

Definition MarkdownType : string := "mrkdwn".
Definition PlainTextType : string := "plain_text".
Definition METCheckboxGroups : string := "checkboxes".
Definition MBTSection : string := "section".
Definition InteractionTypeBlockActions : string := "block_actions".

Record TextBlockObject : Type := {
  TextType : string;
  TextText : string
}.

Record OptionBlockObject : Type := {
  OptionText : option TextBlockObject;
  OptionValue : string;
  OptionDescription : option TextBlockObject
}.

Definition NewOptionBlockObject (value : string)
    (text description : option TextBlockObject) : OptionBlockObject :=
  {| OptionText := text; OptionValue := value;
     OptionDescription := description |}.

Record CheckboxGroupsBlockElement : Type := {
  ElementType : string;
  ElementActionID : string;
  Options : list OptionBlockObject;
  InitialOptions : list OptionBlockObject
}.

Definition NewCheckboxGroupsBlockElement (actionID : string)
    (options : list OptionBlockObject) : CheckboxGroupsBlockElement :=
  {| ElementType := METCheckboxGroups; ElementActionID := actionID;
     Options := options; InitialOptions := [] |}.

(** The interface [BlockElement]: the checkbox group, or an element of
    another type (image, button, ...), of which only the type name is
    kept. *)
Inductive BlockElement : Type :=
| CheckboxGroupsElement (e : CheckboxGroupsBlockElement)
| OtherElement (elementType : string).

(** [Accessory] has one pointer field per element type, and
    [NewAccessory] sets the one of its argument's type.  The fields of the
    types other than the checkbox group are folded into
    [AccessoryOther]. *)
Record Accessory : Type := {
  AccessoryCheckboxGroups : option CheckboxGroupsBlockElement;
  AccessoryOther : option string
}.

Definition NewAccessory (element : BlockElement) : option Accessory :=
  match element with
  | CheckboxGroupsElement e =>
    Some {| AccessoryCheckboxGroups := Some e; AccessoryOther := None |}
  | OtherElement t =>
    Some {| AccessoryCheckboxGroups := None; AccessoryOther := Some t |}
  end.

Record SectionBlock : Type := {
  SectionType : string;
  SectionText : option TextBlockObject;
  SectionFields : list TextBlockObject;
  SectionAccessory : option Accessory
}.

Definition NewSectionBlock (textObj : option TextBlockObject)
    (fields : list TextBlockObject) (accessory : option Accessory)
    : SectionBlock :=
  {| SectionType := MBTSection; SectionText := textObj;
     SectionFields := fields; SectionAccessory := accessory |}.

(** The interface [Block]; the program only builds section blocks. *)
Inductive Block : Type :=
| Section_ (b : SectionBlock).

Record Blocks : Type := { BlockSet : list Block }.

(** [slack.Attachment], with the fields the program assigns; the others
    keep their zero value in every attachment it builds. *)
Record Attachment : Type := {
  Color : string;
  Pretext : string;
  Text : string;
  Fields : list AttachmentField;
  AttachmentBlocks : Blocks
}.

(** [slack.Attachment{}]. *)
Definition zeroAttachment : Attachment :=
  {| Color := ""; Pretext := ""; Text := ""; Fields := [];
     AttachmentBlocks := {| BlockSet := [] |} |}.

(** The assignments [attachment.F = v]. *)
Definition setFields (v : list AttachmentField) (a : Attachment) :=
  {| Color := Color a; Pretext := Pretext a; Text := Text a;
     Fields := v; AttachmentBlocks := AttachmentBlocks a |}.
Definition setText (v : string) (a : Attachment) :=
  {| Color := Color a; Pretext := Pretext a; Text := v;
     Fields := Fields a; AttachmentBlocks := AttachmentBlocks a |}.
Definition setPretext (v : string) (a : Attachment) :=
  {| Color := Color a; Pretext := v; Text := Text a;
     Fields := Fields a; AttachmentBlocks := AttachmentBlocks a |}.
Definition setColor (v : string) (a : Attachment) :=
  {| Color := v; Pretext := Pretext a; Text := Text a;
     Fields := Fields a; AttachmentBlocks := AttachmentBlocks a |}.
Definition setBlocks (v : Blocks) (a : Attachment) :=
  {| Color := Color a; Pretext := Pretext a; Text := Text a;
     Fields := Fields a; AttachmentBlocks := v |}.

(** The functional options of [PostMessage]; the program passes
    [MsgOptionAttachments] only. *)
Inductive MsgOption : Type :=
| MsgOptionAttachments (attachments : list Attachment).

Record SlashCommand : Type := {
  Command : string;
  CommandText : string;
  UserName : string;
  UserID : string;
  ChannelID : string
}.

(** The zero value a failed type assertion leaves in its variable. *)
Definition zeroSlashCommand : SlashCommand :=
  {| Command := ""; CommandText := ""; UserName := ""; UserID := "";
     ChannelID := "" |}.

Record BlockAction : Type := {
  BlockActionID : string;
  BlockID : string;
  SelectedOptions : list OptionBlockObject
}.

(** [BlockActions] is a slice of pointers in Go; the actions are held by
    value, since slack-go's parser never delivers a nil element. *)
Record ActionCallbacks : Type := { BlockActions : list BlockAction }.

Record InteractionCallback : Type := {
  InteractionType : string;
  ActionID : string;
  ActionCallback : ActionCallbacks
}.

Definition zeroInteractionCallback : InteractionCallback :=
  {| InteractionType := ""; ActionID := "";
     ActionCallback := {| BlockActions := [] |} |}.

(** [*slack.Client]: the two Web API methods the handlers call.  Each
    takes the state of the outside world and returns the next one; the
    answer of Slack is not under the program's control. *)
Record Client (World : Type) : Type := {
  GetUserInfo : string -> World -> result User * World;
  PostMessage :
    string -> list MsgOption -> World -> result (string * string) * World
}.
Arguments GetUserInfo {World} c user w.
Arguments PostMessage {World} c channelID options w.

End slack.

(** ** Package [slackevents] *)

Module slackevents.

Definition CallbackEvent : string := "event_callback".
Definition URLVerification : string := "url_verification".
Definition AppRateLimited : string := "app_rate_limited".

Record AppMentionEvent : Type := {
  User : string;
  Text : string;
  TimeStamp : string;
  Channel : string
}.

(** The dynamic type of [EventsAPIInnerEvent.Data]: a pointer to an
    app-mention event, or a value of another inner event type.  The
    pointer is held by the event it points to: slack-go's parser never
    delivers a nil one, and a nil one is not modelled. *)
Inductive InnerData : Type :=
| AppMention (ev : AppMentionEvent)
| OtherInner (innerType : string).

Record EventsAPIInnerEvent : Type := {
  InnerType : string;
  Data : InnerData
}.

Record EventsAPIEvent : Type := {
  Type_ : string;
  InnerEvent : EventsAPIInnerEvent
}.

End slackevents.

(** ** Package [socketmode] *)

(** The value of the [interface{}] a slash-command handler returns and
    the router hands to [Ack]: nil, or an attachment. *)
Definition payload : Type := option slack.Attachment.

Module socketmode.

Definition EventTypeEventsAPI : string := "events_api".
Definition EventTypeInteractive : string := "interactive".
Definition EventTypeSlashCommand : string := "slash_commands".
Definition EventTypeConnecting : string := "connecting".
Definition EventTypeHello : string := "hello".

Record Request : Type := {
  RequestType : string;
  EnvelopeID : string
}.

(** The dynamic type of [Event.Data] (an [interface{}]). *)
Inductive EventData : Type :=
| EventsAPIEventData (e : slackevents.EventsAPIEvent)
| SlashCommandData (c : slack.SlashCommand)
| InteractionCallbackData (i : slack.InteractionCallback)
| OtherData (dynamicType : string).

Record Event : Type := {
  Type_ : string;
  Data : EventData;
  Request_ : option Request
}.

(** [*socketmode.Client], as far as the listener uses it: [Ack] writes
    a response onto the socket.  Its variadic [payload] is a list. *)
Record Client (World : Type) : Type := {
  Ack : Request -> list payload -> World -> World
}.
Arguments Ack {World} c req payload w.

End socketmode.

(** ** What the process does to the outside *)

(** An operand of a [log] call, kept unformatted. *)
Inductive LogArg : Type :=
| ArgString (s : string)
| ArgEvent (e : socketmode.Event)
| ArgSlashCommand (c : slack.SlashCommand)
| ArgInteraction (i : slack.InteractionCallback)
| ArgBlockAction (a : slack.BlockAction)
| ArgOptions (l : list slack.OptionBlockObject).

(** One observable call of the process, in the order they are made. *)
Inductive Call : Type :=
| LogPrintf (format : string) (args : list LogArg)
| LogPrintln (args : list LogArg)
| LogFatal (err : error)
| CallGetUserInfo (user : string)
| CallPostMessage (channelID : string) (options : list slack.MsgOption)
| CallAck (req : socketmode.Request) (payload : list payload).

Definition isLog (c : Call) : bool :=
  match c with
  | LogPrintf _ _ | LogPrintln _ => true
  | _ => false
  end.

(** The messages posted: the arguments of the [PostMessage] calls. *)
Fixpoint posts (t : list Call) : list (string * list slack.MsgOption) :=
  match t with
  | [] => []
  | CallPostMessage ch o :: t' => (ch, o) :: posts t'
  | _ :: t' => posts t'
  end.

(** The acknowledgments sent. *)
Fixpoint acks (t : list Call) : list (socketmode.Request * list payload) :=
  match t with
  | [] => []
  | CallAck r p :: t' => (r, p) :: acks t'
  | _ :: t' => acks t'
  end.

(** ** The monad of the handlers: the world is threaded through, and the
    calls made are written out in order *)

Definition M (World A : Type) : Type := World -> A * World * list Call.

Definition ret {World A : Type} (a : A) : M World A :=
  fun w => (a, w, []).

Definition bind {World A B : Type} (m : M World A) (f : A -> M World B)
    : M World B :=
  fun w =>
    let '(a, w1, t1) := m w in
    let '(b, w2, t2) := f a w1 in
    (b, w2, t1 ++ t2)%list.

Notation "x <- m ;; k" := (bind m (fun x => k))
  (at level 61, m at next level, right associativity).
Notation "m ;;; k" := (bind m (fun _ => k))
  (at level 61, right associativity).

Definition emit {World : Type} (c : Call) : M World unit :=
  fun w => (tt, w, [c]).

Definition result_of {World A : Type} (x : A * World * list Call) : A :=
  fst (fst x).
Definition world_of {World A : Type} (x : A * World * list Call) : World :=
  snd (fst x).
Definition calls_of {World A : Type} (x : A * World * list Call) : list Call :=
  snd x.

Notation "' pat <- m ;; k" := (bind m (fun x => match x with pat => k end))
  (at level 61, pat pattern, m at next level, right associativity).

(** ** Package [cmd]: the handlers and the listener of [startCmd] *)

(** What one round of the listener's [for] loop leads to. *)
Inductive Outcome : Type :=
| Next                      (* back to the [select] *)
| Returned                  (* the goroutine returned *)
| Exited (code : Z)         (* [os.Exit], through [log.Fatal] *)
| Panicked (reason : string).

(** What the [select] of the listener picks in one round. *)
Inductive Selected : Type :=
| CtxDone
| Received (event : socketmode.Event).

(** The text of the run-time error Go panics with at [*p] for a nil [p]. *)
Definition nilDereference : string :=
  "runtime error: invalid memory address or nil pointer dereference".

Section Cmd.

Context {World : Type} {clock : time.Clock World} {tables : CaseTables}.

(** *** The calls to the outside *)

Definition log_Printf (format : string) (args : list LogArg)
    : M World unit :=
  emit (LogPrintf format args).

Definition log_Println (args : list LogArg) : M World unit :=
  emit (LogPrintln args).

(** [log.Fatal(err)]: print, then [os.Exit(1)]. *)
Definition log_Fatal (err : error) : M World Outcome :=
  emit (LogFatal err) ;;; ret (Exited 1).

Definition time_Now : M World time.Time :=
  fun w => let '(t, w') := time.Now w in (t, w', []).

Definition client_GetUserInfo (client : slack.Client World) (user : string)
    : M World (result slack.User) :=
  fun w =>
    let '(r, w') := slack.GetUserInfo client user w in
    (r, w', [CallGetUserInfo user]).

Definition client_PostMessage (client : slack.Client World)
    (channelID : string) (options : list slack.MsgOption)
    : M World (result (string * string)) :=
  fun w =>
    let '(r, w') := slack.PostMessage client channelID options w in
    (r, w', [CallPostMessage channelID options]).

Definition socketClient_Ack (socketClient : socketmode.Client World)
    (req : socketmode.Request) (p : list payload) : M World unit :=
  fun w => (tt, socketmode.Ack socketClient req p w, [CallAck req p]).

(** *** [handleAppMentionEvent] *)

Definition handleAppMentionEvent (event : slackevents.AppMentionEvent)
    (client : slack.Client World) : M World (option error) :=
  r <- client_GetUserInfo client (slackevents.User event) ;;
  match r with
  | Err err => ret (Some err)
  | Ok user =>
    let text := strings.ToLower lowerCase (slackevents.Text event) in
    let attachment := slack.zeroAttachment in
    now <- time_Now ;;
    let attachment :=
      slack.setFields
        [ {| slack.Title := "Date";
             slack.Value := time.Format now "2006-01-02 15:04:05";
             slack.Short := false |};
          {| slack.Title := "Initializer";
             slack.Value := slack.Name user;
             slack.Short := false |} ]
        attachment in
    let attachment :=
      if strings.Contains text "hello" then
        let attachment :=
          slack.setText (fmt.Sprintf "Hello %s" [slack.Name user])
                        attachment in
        let attachment := slack.setPretext "Greetings" attachment in
        slack.setColor "#4af030" attachment
      else
        let attachment :=
          slack.setText (fmt.Sprintf "How can I help you %s"
                                     [slack.Name user])
                        attachment in
        let attachment :=
          slack.setPretext "How can I be of service?" attachment in
        slack.setColor "#3d3d3d" attachment in
    r <- client_PostMessage client (slackevents.Channel event)
           [slack.MsgOptionAttachments [attachment]] ;;
    match r with
    | Err err => ret (Some (fmt.Errorf "failed to post message: %w" err))
    | Ok _ => ret None
    end
  end.

(** *** [handleEventMessage] *)

Definition handleEventMessage (event : slackevents.EventsAPIEvent)
    (client : slack.Client World) : M World (option error) :=
  if (slackevents.Type_ event =? slackevents.CallbackEvent)%string then
    let innerEvent := slackevents.InnerEvent event in
    match slackevents.Data innerEvent with
    | slackevents.AppMention ev =>
      err <- handleAppMentionEvent ev client ;;
      match err with
      | Some err => ret (Some err)
      | None => ret None
      end
    | slackevents.OtherInner _ => ret None
    end
  else ret (Some (errors.New "unsupported event type")).

(** *** [handleHelloCommand] *)

Definition handleHelloCommand (command : slack.SlashCommand)
    (client : slack.Client World) : M World (option error) :=
  let attachment := slack.zeroAttachment in
  now <- time_Now ;;
  let attachment :=
    slack.setFields
      [ {| slack.Title := "Date";
           slack.Value := time.Format now "2006-01-02 15:04:05";
           slack.Short := false |};
        {| slack.Title := "Initializer";
           slack.Value := slack.UserName command;
           slack.Short := false |} ]
      attachment in
  let attachment :=
    slack.setText
      (fmt.Sprintf "Hello %s! You said: %s"
         [slack.UserName command; slack.CommandText command])
      attachment in
  let attachment := slack.setColor "#4af030" attachment in
  r <- client_PostMessage client (slack.ChannelID command)
         [slack.MsgOptionAttachments [attachment]] ;;
  match r with
  | Err err => ret (Some (fmt.Errorf "failed to post message: %w" err))
  | Ok _ => ret None
  end.

(** *** [handleIsArticleGood] *)

Definition handleIsArticleGood (command : slack.SlashCommand)
    (client : slack.Client World) : M World (payload * option error) :=
  let attachment := slack.zeroAttachment in
  let checkbox :=
    slack.NewCheckboxGroupsBlockElement "answer"
      [ slack.NewOptionBlockObject "yes"
          (Some {| slack.TextText := "Yes";
                   slack.TextType := slack.MarkdownType |})
          (Some {| slack.TextText := "Did you Enjoy it?";
                   slack.TextType := slack.MarkdownType |});
        slack.NewOptionBlockObject "no"
          (Some {| slack.TextText := "No";
                   slack.TextType := slack.MarkdownType |})
          (Some {| slack.TextText := "Did you Dislike it?";
                   slack.TextType := slack.MarkdownType |}) ] in
  let accessory := slack.NewAccessory (slack.CheckboxGroupsElement checkbox) in
  let attachment :=
    slack.setBlocks
      {| slack.BlockSet :=
           [ slack.Section_
               (slack.NewSectionBlock
                  (Some {| slack.TextType := slack.MarkdownType;
                           slack.TextText :=
                             "Did you think this article was helpful?" |})
                  []
                  accessory) ] |}
      attachment in
  let attachment := slack.setText "Rate the tutorial" attachment in
  let attachment := slack.setColor "#4af030" attachment in
  ret (Some attachment, None).

(** *** [handleSlashCommand] *)

Definition handleSlashCommand (command : slack.SlashCommand)
    (client : slack.Client World) : M World (payload * option error) :=
  if (slack.Command command =? "/hello")%string then
    err <- handleHelloCommand command client ;;
    ret (None, err)
  else if (slack.Command command =? "/was-this-article-useful")%string then
    handleIsArticleGood command client
  else ret (None, None).

(** *** [handleInteractiveEvent] *)

(** The [range] loop over [interaction.ActionCallback.BlockActions]. *)
Fixpoint logBlockActions (actions : list slack.BlockAction)
    : M World unit :=
  match actions with
  | [] => ret tt
  | action :: rest =>
    log_Printf ("Action: %+v" ++ LF) [ArgBlockAction action] ;;;
    log_Println [ArgString "Selected option: ";
                 ArgOptions (slack.SelectedOptions action)] ;;;
    logBlockActions rest
  end.

Definition handleInteractiveEvent (interaction : slack.InteractionCallback)
    (client : slack.Client World) : M World (option error) :=
  log_Printf ("The action called is: %s" ++ LF)
             [ArgString (slack.ActionID interaction)] ;;;
  log_Printf ("The response was of type: %s" ++ LF)
             [ArgString (slack.InteractionType interaction)] ;;;
  (if (slack.InteractionType interaction
       =? slack.InteractionTypeBlockActions)%string
   then logBlockActions
          (slack.BlockActions (slack.ActionCallback interaction))
   else ret tt) ;;;
  ret None.

(** *** The listener goroutine of [startCmd] *)

(** The body of [case event := <-socketClient.Events], over the three
    handlers it calls. *)
Definition dispatch
    (onEventsAPI : slackevents.EventsAPIEvent -> slack.Client World ->
                   M World (option error))
    (onSlashCommand : slack.SlashCommand -> slack.Client World ->
                      M World (payload * option error))
    (onInteractive : slack.InteractionCallback -> slack.Client World ->
                     M World (option error))
    (client : slack.Client World)
    (socketClient : socketmode.Client World)
    (event : socketmode.Event) : M World Outcome :=
  if (socketmode.Type_ event =? socketmode.EventTypeEventsAPI)%string then
    match socketmode.Data event with
    | socketmode.EventsAPIEventData eventsAPIEvent =>
      match socketmode.Request_ event with
      | None => ret (Panicked nilDereference)
      | Some req =>
        socketClient_Ack socketClient req [] ;;;
        err <- onEventsAPI eventsAPIEvent client ;;
        match err with
        | Some err => log_Fatal err
        | None => ret Next
        end
      end
    | _ =>
      log_Printf
        ("Could not type cast the event to the EventsAPIEvent: %+v" ++ LF)
        [ArgEvent event] ;;;
      ret Next
    end
  else if (socketmode.Type_ event
           =? socketmode.EventTypeSlashCommand)%string then
    match socketmode.Data event with
    | socketmode.SlashCommandData command =>
      ' (p, err) <- onSlashCommand command client ;;
      match err with
      | Some err => log_Fatal err
      | None =>
        match socketmode.Request_ event with
        | None => ret (Panicked nilDereference)
        | Some req =>
          socketClient_Ack socketClient req [p] ;;;
          ret Next
        end
      end
    | _ =>
      log_Printf
        ("Could not type cast the message to a SlashCommand: %+v" ++ LF)
        [ArgSlashCommand slack.zeroSlashCommand] ;;;
      ret Next
    end
  else if (socketmode.Type_ event
           =? socketmode.EventTypeInteractive)%string then
    match socketmode.Data event with
    | socketmode.InteractionCallbackData interaction =>
      err <- onInteractive interaction client ;;
      match err with
      | Some err => log_Fatal err
      | None =>
        match socketmode.Request_ event with
        | None => ret (Panicked nilDereference)
        | Some req =>
          socketClient_Ack socketClient req [] ;;;
          ret Next
        end
      end
    | _ =>
      log_Printf
        ("Could not type cast the message to a Interaction callback: %+v"
         ++ LF)
        [ArgInteraction slack.zeroInteractionCallback] ;;;
      ret Next
    end
  else ret Next.

(** The [switch event.Type] of the listener, with the handlers of this
    package. *)
Definition onEvent : slack.Client World -> socketmode.Client World ->
                     socketmode.Event -> M World Outcome :=
  dispatch handleEventMessage handleSlashCommand handleInteractiveEvent.

(** The [for { select { ... } }] of the listener, over what the
    [select] picks round after round.  When the picks run out the
    goroutine is back at the [select]. *)
Fixpoint listenWith
    (body : socketmode.Event -> M World Outcome)
    (picks : list Selected) : M World Outcome :=
  match picks with
  | [] => ret Next
  | CtxDone :: _ =>
    log_Println [ArgString "Shutting down socketmode listener"] ;;;
    ret Returned
  | Received event :: rest =>
    o <- body event ;;
    match o with
    | Next => listenWith body rest
    | _ => ret o
    end
  end.

Definition listen (client : slack.Client World)
    (socketClient : socketmode.Client World)
    (picks : list Selected) : M World Outcome :=
  listenWith (onEvent client socketClient) picks.

End Cmd.

(** ** The words of the specification *)

(** [c] is the letter [p] in either case: [p] itself, or its capital when
    [p] is a small ASCII letter. *)
Definition sameLetter (p c : byte) : bool :=
  Ascii.eqb c p
  || ((97 <=? Z_of_byte p) && (Z_of_byte p <=? 122)
      && (Z_of_byte c =? Z_of_byte p - 32)).

(** [s] starts with [pat], letter case ignored. *)
Fixpoint prefixAnyCase (pat s : string) : bool :=
  match pat with
  | EmptyString => true
  | String p pat' =>
    match s with
    | EmptyString => false
    | String c s' => sameLetter p c && prefixAnyCase pat' s'
    end
  end.

(** [s] contains [pat] in any letter case. *)
Fixpoint containsAnyCase (s pat : string) : bool :=
  prefixAnyCase pat s
  || match s with
     | EmptyString => false
     | String _ s' => containsAnyCase s' pat
     end.

(** The bytes of [s] as integers. *)
Definition bytes (s : string) : list Z :=
  List.map Z_of_byte (list_ascii_of_string s).

(** What the proofs need of Unicode's table of small letters: the image
    of a rune above ASCII, up to the last rune [utf8.MaxRune], is a rune
    again, and none is a letter of [pat].  Nothing is asked of the table
    beyond [utf8.MaxRune], where [unicode.ToLower] leaves its operand as it
    is: the decoder never yields a rune from there. *)
Definition lowersOutside {tables : CaseTables} (pat : string) : Prop :=
  forall r, unicode.MaxASCII < r <= utf8.MaxRune ->
    0 <= lowerCase r <= utf8.MaxRune /\ ~ In (lowerCase r) (bytes pat).

(** The event [event] with its text replaced. *)
Definition withText (text : string) (event : slackevents.AppMentionEvent)
    : slackevents.AppMentionEvent :=
  {| slackevents.User := slackevents.User event;
     slackevents.Text := text;
     slackevents.TimeStamp := slackevents.TimeStamp event;
     slackevents.Channel := slackevents.Channel event |}.

(** The checkbox groups among the accessories of an attachment's blocks. *)
Definition checkboxGroups (a : slack.Attachment)
    : list slack.CheckboxGroupsBlockElement :=
  flat_map
    (fun b =>
       match b with
       | slack.Section_ sec =>
         match slack.SectionAccessory sec with
         | Some acc =>
           match slack.AccessoryCheckboxGroups acc with
           | Some cb => [cb]
           | None => []
           end
         | None => []
         end
       end)
    (slack.BlockSet (slack.AttachmentBlocks a)).

(** The label of an option: the text of its text object. *)
Definition optionLabel (o : slack.OptionBlockObject) : string :=
  match slack.OptionText o with
  | Some t => slack.TextText t
  | None => ""
  end.

(** The layout both handlers pass to [Format]. *)
Definition dateLayout : string := "2006-01-02 15:04:05".

(** The two fields every reply starts with. *)
Definition contextFields (date name : string) : list slack.AttachmentField :=
  [ {| slack.Title := "Date"; slack.Value := date; slack.Short := false |};
    {| slack.Title := "Initializer"; slack.Value := name;
       slack.Short := false |} ].

(** The reply to [/hello]. *)
Definition echoAttachment (date name text : string) : slack.Attachment :=
  {| slack.Color := "#4af030"; slack.Pretext := "";
     slack.Text := "Hello " ++ name ++ "! You said: " ++ text;
     slack.Fields := contextFields date name;
     slack.AttachmentBlocks := {| slack.BlockSet := [] |} |}.

(** The two replies to a mention. *)
Definition greetingAttachment (date name : string) : slack.Attachment :=
  {| slack.Color := "#4af030"; slack.Pretext := "Greetings";
     slack.Text := "Hello " ++ name;
     slack.Fields := contextFields date name;
     slack.AttachmentBlocks := {| slack.BlockSet := [] |} |}.

Definition serviceAttachment (date name : string) : slack.Attachment :=
  {| slack.Color := "#3d3d3d"; slack.Pretext := "How can I be of service?";
     slack.Text := "How can I help you " ++ name;
     slack.Fields := contextFields date name;
     slack.AttachmentBlocks := {| slack.BlockSet := [] |} |}.

(** The error a handler returns after [PostMessage] answered [r]. *)
Definition postError (r : result (string * string)) : option error :=
  match r with
  | Err err => Some (fmt.Errorf "failed to post message: %w" err)
  | Ok _ => None
  end.

(** The kinds of socket-mode events the listener routes. *)
Definition routed (eventType : string) : bool :=
  ((eventType =? socketmode.EventTypeEventsAPI)
   || (eventType =? socketmode.EventTypeSlashCommand)
   || (eventType =? socketmode.EventTypeInteractive))%string.

(** The event is of a routed kind and its data is not of the dynamic type
    that kind is cast to. *)
Definition castFails (event : socketmode.Event) : bool :=
  if (socketmode.Type_ event =? socketmode.EventTypeEventsAPI)%string then
    match socketmode.Data event with
    | socketmode.EventsAPIEventData _ => false
    | _ => true
    end
  else if (socketmode.Type_ event
           =? socketmode.EventTypeSlashCommand)%string then
    match socketmode.Data event with
    | socketmode.SlashCommandData _ => false
    | _ => true
    end
  else if (socketmode.Type_ event
           =? socketmode.EventTypeInteractive)%string then
    match socketmode.Data event with
    | socketmode.InteractionCallbackData _ => false
    | _ => true
    end
  else false.

(** A round of the listener that ends in [log.Fatal(e)]: the process
    exits with status 1, the last call is the fatal log line, and what
    the [select] would have picked next is never looked at. *)
Definition fatalWith {World : Type}
    (body : socketmode.Event -> M World Outcome)
    (event : socketmode.Event) (w : World) (e : error) : Prop :=
  result_of (body event w) = Exited 1
  /\ (exists before, calls_of (body event w) = (before ++ [LogFatal e])%list)
  /\ forall rest,
       listenWith body (Received event :: rest) w = body event w.

(** The log lines of [handleInteractiveEvent] for one block action. *)
Definition blockActionLines (action : slack.BlockAction) : list Call :=
  [ LogPrintf ("Action: %+v" ++ LF) [ArgBlockAction action];
    LogPrintln [ArgString "Selected option: ";
                ArgOptions (slack.SelectedOptions action)] ].

(** ** Notions of the proofs about [strings.ToLower] *)

(** All bytes are outside ASCII. *)
Fixpoint allHigh (s : string) : bool :=
  match s with
  | EmptyString => true
  | String c s' => (utf8.RuneSelf <=? Z_of_byte c) && allHigh s'
  end.

(** A property of the integers below [n], checked value by value. *)
Fixpoint checkBelow (P : Z -> bool) (n : nat) : bool :=
  match n with
  | O => true
  | S n' => P (Z.of_nat n') && checkBelow P n'
  end.

(** Decoding at a byte outside ASCII: a run [q] of such bytes is consumed,
    and the rune is above ASCII and at most [utf8.MaxRune]. *)
Definition highStep (s : string) (c : Z) (w : nat) : Prop :=
  exists q t, s = q ++ t /\ skip w s = t /\ q <> "" /\ allHigh q = true
              /\ unicode.MaxASCII < c <= utf8.MaxRune.

(** [substr] occurs in [s]. *)
Fixpoint occurs (s substr : string) : bool :=
  String.prefix substr s
  || match s with
     | EmptyString => false
     | String _ s' => occurs s' substr
     end.

(** A pattern of ASCII bytes without capitals. *)
Fixpoint lowerPattern (pat : string) : bool :=
  match pat with
  | EmptyString => true
  | String p pat' =>
    (Z_of_byte p <? utf8.RuneSelf) && negb (strings.isUpperByte p)
    && lowerPattern pat'
  end.

(** [aligned P t o]: [o] is [t] with every ASCII byte lowered in place and
    every run of bytes that made a rune above ASCII replaced by bytes
    that satisfy [P]. *)
Inductive aligned (P : string -> Prop) : string -> string -> Prop :=
| aligned_nil : aligned P "" ""
| aligned_ascii c t o :
    Z_of_byte c < utf8.RuneSelf -> aligned P t o ->
    aligned P (String c t) (String (strings.lowerByte c) o)
| aligned_block q p t o :
    q <> "" -> allHigh q = true -> P p -> aligned P t o ->
    aligned P (q ++ t) (p ++ o).

(** Bytes that cannot take part in an occurrence of [pat]: there is at
    least one, and none is a byte of [pat]. *)
Definition blocker (pat : string) (p : string) : Prop :=
  p <> "" /\ forall b, In b (list_ascii_of_string p) ->
                       ~ In b (list_ascii_of_string pat).

(** The bytes [strings.Map] writes for a rune [c] under
    [unicode.ToLower]. *)
Definition written (lc : Z -> Z) (c : Z) : string :=
  if 0 <=? unicode.ToLower lc c
  then utf8.AppendRune (unicode.ToLower lc c) else "".

(** ** A small world to run the program in *)

Module Demo.

(** The outside: a clock reading, the users Slack knows, and the channels
    the bot may post to. *)
Record World : Type := {
  clock : string;
  directory : list (string * slack.User);
  channels : list string;
  sent : nat
}.

#[global] Instance wallClock : time.Clock World := {|
  time.Time := string;
  time.Now := fun w => (clock w, w);
  time.Format := fun t _ => t
|}.

(** A few entries of Unicode's table: the capitals of Latin-1, the
    dotted capital I and the Kelvin sign; every other operand is left as
    it is, as [unicode.ToLower] leaves what has no small letter. *)
#[global] Instance caseTables : CaseTables := {|
  lowerCase := fun r =>
    if r =? 0x130 then 0x69
    else if r =? 0x212A then 0x6B
    else if (0xC0 <=? r) && (r <=? 0xDE) && negb (r =? 0xD7) then r + 32
    else r
|}.

Fixpoint lookup (user : string) (d : list (string * slack.User))
    : option slack.User :=
  match d with
  | [] => None
  | (k, u) :: d' => if (k =? user)%string then Some u else lookup user d'
  end.

Definition client : slack.Client World := {|
  slack.GetUserInfo := fun user w =>
    match lookup user (directory w) with
    | Some u => (Ok u, w)
    | None => (Err (errorString "user_not_found"), w)
    end;
  slack.PostMessage := fun channelID _ w =>
    if existsb (String.eqb channelID) (channels w)
    then (Ok (channelID, clock w),
          {| clock := clock w; directory := directory w;
             channels := channels w; sent := S (sent w) |})
    else (Err (errorString "channel_not_found"), w)
|}.

Definition socketClient : socketmode.Client World := {|
  socketmode.Ack := fun _ _ w => w
|}.

Definition world : World := {|
  clock := "2024-02-03 04:05:06";
  directory := [("U1", {| slack.ID := "U1"; slack.Name := "pavlo" |})];
  channels := ["C1"];
  sent := 0
|}.

Definition request : socketmode.Request :=
  {| socketmode.RequestType := "events_api"; socketmode.EnvelopeID := "e-1" |}.

Definition mention (user text channel : string)
    : slackevents.AppMentionEvent :=
  {| slackevents.User := user; slackevents.Text := text;
     slackevents.TimeStamp := "1706933106.000100";
     slackevents.Channel := channel |}.

Definition callback (data : slackevents.InnerData)
    : slackevents.EventsAPIEvent :=
  {| slackevents.Type_ := slackevents.CallbackEvent;
     slackevents.InnerEvent :=
       {| slackevents.InnerType := "app_mention";
          slackevents.Data := data |} |}.

Definition urlVerification : slackevents.EventsAPIEvent :=
  {| slackevents.Type_ := slackevents.URLVerification;
     slackevents.InnerEvent :=
       {| slackevents.InnerType := "";
          slackevents.Data := slackevents.OtherInner "" |} |}.

Definition slash (command text channel : string) : slack.SlashCommand :=
  {| slack.Command := command; slack.CommandText := text;
     slack.UserName := "pavlo"; slack.UserID := "U1";
     slack.ChannelID := channel |}.

Definition event (eventType : string) (data : socketmode.EventData)
    : socketmode.Event :=
  {| socketmode.Type_ := eventType; socketmode.Data := data;
     socketmode.Request_ := Some request |}.

Definition answer : slack.InteractionCallback :=
  {| slack.InteractionType := slack.InteractionTypeBlockActions;
     slack.ActionID := "answer";
     slack.ActionCallback :=
       {| slack.BlockActions :=
            [ {| slack.BlockActionID := "answer"; slack.BlockID := "b1";
                 slack.SelectedOptions :=
                   [ slack.NewOptionBlockObject "yes"
                       (Some {| slack.TextType := slack.MarkdownType;
                                slack.TextText := "Yes" |})
                       None ] |} ] |} |}.

End Demo.

(** ** More of the packages [errors], [os] and [godotenv] *)

(** [errors.Unwrap]: the error a [%w] error wraps, nil for the others. *)
Definition errors_Unwrap (e : error) : option error :=
  match e with
  | wrapError _ err => Some err
  | errorString _ => None
  end.

Module os.

(** The environment of the process: a variable is unset, or set to a
    value, which may be empty. *)
Definition Environ : Type := string -> option string.

(** [os.Getenv]: an unset variable reads as the empty string. *)
Definition Getenv (key : string) (env : Environ) : string :=
  match env key with
  | Some v => v
  | None => ""
  end.

End os.

Module godotenv.

(** [godotenv.Load] of one file, given the map the file parses to (the
    empty map when the file is missing, an error this program ignores):
    every variable of the file that the environment does not have yet is
    set; a variable the environment has, even empty, is left alone. *)
Definition Load (envMap : string -> option string) (env : os.Environ)
    : os.Environ :=
  fun k =>
    match env k with
    | Some v => Some v
    | None => envMap k
    end.

End godotenv.

(** ** The listener: what is counted in its calls *)

Definition isFatal (c : Call) : bool :=
  match c with
  | LogFatal _ => true
  | _ => false
  end.

(** The [log.Fatal] calls among the calls made. *)
Definition fatals (t : list Call) : list Call := List.filter isFatal t.

(** The number of events among what the [select] picked. *)
Fixpoint received (picks : list Selected) : nat :=
  match picks with
  | [] => O
  | CtxDone :: rest => received rest
  | Received _ :: rest => S (received rest)
  end.

(** The calls of a handler: no [log.Fatal], no [Ack], at most one post. *)
Definition modest (t : list Call) : Prop :=
  fatals t = [] /\ acks t = [] /\ (List.length (posts t) <= 1)%nat.

(** [log.Fatal] is called at most once, as the last call, and just when
    the process exits, with status 1. *)
Definition fatalOnlyLast {World : Type} (out : Outcome * World * list Call)
    : Prop :=
  match result_of out with
  | Exited code =>
    code = 1
    /\ exists before e,
         calls_of out = (before ++ [LogFatal e])%list /\ fatals before = []
  | _ => fatals (calls_of out) = []
  end.

(** The line the listener logs when its context is cancelled. *)
Definition shutdownLine : Call :=
  LogPrintln [ArgString "Shutting down socketmode listener"].

(** The attachment [handleAppMentionEvent] builds for a text. *)
Definition mentionAttachment {tables : CaseTables} (text date name : string)
    : slack.Attachment :=
  if strings.Contains (strings.ToLower lowerCase text) "hello"
  then greetingAttachment date name
  else serviceAttachment date name.

(** ** The command [start] that posts one message

    The other [startCmd] of the repository: it posts one fixed attachment
    to the channel named in the environment and ends. *)

Module poster.

(** What the command does to the outside, in order: a write to the
    standard output, or a call of the Slack client. *)
Inductive Step : Type :=
| Stdout (s : string)
| Slack (c : Call).

(** The attachment literal of the command; [date] is
    [time.Now().String()]. *)
Definition attachment (date : string) : slack.Attachment :=
  {| slack.Color := "4af030"; slack.Pretext := "Super Bot Message";
     slack.Text := "some text";
     slack.Fields :=
       [ {| slack.Title := "Date"; slack.Value := date;
            slack.Short := false |} ];
     slack.AttachmentBlocks := {| slack.BlockSet := [] |} |}.

(** The body of [Run].  [New] is [slack.New] with the debug option,
    [timeString] is [Time.String], [envMap] is what [.env] parses to. *)
Definition startCmd {World : Type} {clock : time.Clock World}
    (appVersion : string)
    (New : string -> slack.Client World)
    (timeString : time.Time -> string)
    (envMap : string -> option string) (env : os.Environ) (w : World)
    : Outcome * World * list Step :=
  let out1 := Stdout (fmt.Sprintf "MAVBot %s started" [appVersion]) in
  let env := godotenv.Load envMap env in
  let token := os.Getenv "SLACK_AUTH_TOKEN" env in
  let channelId := os.Getenv "SLACK_CHANEL_ID" env in
  let client := New token in
  let '(now, w1) := time.Now w in
  let a := attachment (timeString now) in
  let '(r, w2) := slack.PostMessage client channelId
                    [slack.MsgOptionAttachments [a]] w1 in
  let call := Slack (CallPostMessage channelId
                       [slack.MsgOptionAttachments [a]]) in
  match r with
  | Err err => (Panicked (Error err), w2, [out1; call])
  | Ok (_, timestamp) =>
    (Returned, w2,
     [out1; call; Stdout (fmt.Sprintf "Message sent at %s" [timestamp])])
  end.

(** What was written to the standard output, put together. *)
Fixpoint stdout (t : list Step) : string :=
  match t with
  | [] => ""
  | Stdout s :: t' => s ++ stdout t'
  | Slack _ :: t' => stdout t'
  end.

(** The calls of the Slack client. *)
Fixpoint slackCalls (t : list Step) : list Call :=
  match t with
  | [] => []
  | Slack c :: t' => c :: slackCalls t'
  | Stdout _ :: t' => slackCalls t'
  end.

End poster.

(** ** More of the small world *)

Module Trial.

(** The reading of the clock of [Demo.world]. *)
Definition now : @time.Time Demo.World Demo.wallClock :=
  Demo.clock Demo.world.

(** [Demo.world] after one message was accepted. *)
Definition posted : Demo.World :=
  {| Demo.clock := Demo.clock Demo.world;
     Demo.directory := Demo.directory Demo.world;
     Demo.channels := Demo.channels Demo.world;
     Demo.sent := 1 |}.

Definition pavlo : slack.User := {| slack.ID := "U1"; slack.Name := "pavlo" |}.

(** A slash command that reached the listener without its request. *)
Definition orphan : socketmode.Event :=
  {| socketmode.Type_ := socketmode.EventTypeSlashCommand;
     socketmode.Data :=
       socketmode.SlashCommandData
         (Demo.slash "/was-this-article-useful" "x" "C1");
     socketmode.Request_ := None |}.

End Trial.

(** * Facts *)

Arguments Z_of_byte : simpl never.
Arguments byte_of_Z : simpl never.

(** ** Bytes and bits *)

Lemma Z_of_byte_range b : 0 <= Z_of_byte b < 256.
Proof.
  unfold Z_of_byte. pose proof (N_ascii_bounded b). lia.
Qed.

Lemma Z_of_byte_of_Z x : Z_of_byte (byte_of_Z x) = x mod 256.
Proof.
  unfold Z_of_byte, byte_of_Z.
  pose proof (Z.mod_pos_bound x 256 ltac:(lia)).
  rewrite N_ascii_embedding; [ lia | lia ].
Qed.

Lemma byte_of_Z_of_byte b : byte_of_Z (Z_of_byte b) = b.
Proof.
  unfold byte_of_Z. pose proof (Z_of_byte_range b).
  rewrite Z.mod_small by lia. unfold Z_of_byte.
  rewrite N2Z.id. apply ascii_N_embedding.
Qed.

Lemma le_lor_l a b : 0 <= b -> a <= Z.lor a b.
Proof.
  intros Hb. pose proof (Z.sub_lor_l_same_l b a) as H.
  assert (0 <= Z.land b (Z.lnot a)) by (apply Z.land_nonneg; auto).
  lia.
Qed.

Lemma le_lor_r a b : 0 <= a -> b <= Z.lor a b.
Proof. intros. rewrite Z.lor_comm. now apply le_lor_l. Qed.

(** Bit 7 survives the conversion to a byte. *)
Lemma high_bit_byte t x :
  Z.testbit t 7 = true -> 128 <= Z_of_byte (byte_of_Z (Z.lor t x)).
Proof.
  intros Ht. rewrite Z_of_byte_of_Z.
  set (n := Z.lor t x mod 256).
  assert (Hn : 0 <= n < 256) by (apply Z.mod_pos_bound; lia).
  assert (Hb : Z.testbit n 7 = true).
  { unfold n. change 256 with (2 ^ 8). rewrite Z.mod_pow2_bits_low by lia.
    rewrite Z.lor_spec, Ht. reflexivity. }
  destruct (Z.lt_ge_cases n 128) as [Hlt | Hge]; [ | exact Hge ].
  pose proof (Z.testbit_spec' n 7 ltac:(lia)) as Hs.
  rewrite Hb in Hs. change (2 ^ 7) with 128 in Hs.
  rewrite Z.div_small in Hs by lia. discriminate Hs.
Qed.

Lemma checkBelow_sound P n :
  checkBelow P n = true -> forall v, 0 <= v < Z.of_nat n -> P v = true.
Proof.
  induction n as [| n IH]; intros H v Hv; [ lia | ].
  simpl in H. apply andb_true_iff in H as [H0 H1].
  destruct (Z.eq_dec v (Z.of_nat n)) as [-> | Hne]; [ exact H0 | ].
  apply IH; [ exact H1 | lia ].
Qed.

Lemma byte_check (P : Z -> bool) :
  checkBelow P 256 = true -> forall b, P (Z_of_byte b) = true.
Proof.
  intros H b. apply (checkBelow_sound P 256 H).
  pose proof (Z_of_byte_range b). lia.
Qed.


(** Facts on one byte, each settled by running through the 256 values. *)
Ltac by_byte_check b P :=
  let Hc := fresh "Hc" in
  pose proof (byte_check P eq_refl b) as Hc; cbv beta in Hc;
  repeat match type of Hc with
         | (_ || _) = true => apply orb_true_iff in Hc as [Hc | Hc]
         | negb _ = true => apply negb_true_iff in Hc
         | (_ && _) = false => apply andb_false_iff in Hc as [Hc | Hc]
         | (_ <=? _) = false => apply Z.leb_gt in Hc
         | (_ <=? _) = true => apply Z.leb_le in Hc
         | (_ =? _) = false => apply Z.eqb_neq in Hc
         | (_ =? _) = true => apply Z.eqb_eq in Hc
         end; try lia; try assumption.

Lemma lead2_bound b : 0xC2 <= Z_of_byte b <= 0xDF ->
  128 <= Z.shiftl (Z.land (Z_of_byte b) utf8.mask2) 6.
Proof.
  intros H.
  by_byte_check b
    (fun v => negb ((0xC2 <=? v) && (v <=? 0xDF))
              || (128 <=? Z.shiftl (Z.land v utf8.mask2) 6)).
Qed.

Lemma lead3_bound b : 0xE1 <= Z_of_byte b <= 0xEF ->
  128 <= Z.shiftl (Z.land (Z_of_byte b) utf8.mask3) 12.
Proof.
  intros H.
  by_byte_check b
    (fun v => negb ((0xE1 <=? v) && (v <=? 0xEF))
              || (128 <=? Z.shiftl (Z.land v utf8.mask3) 12)).
Qed.

Lemma lead4_bound b : 0xF1 <= Z_of_byte b <= 0xF4 ->
  128 <= Z.shiftl (Z.land (Z_of_byte b) utf8.mask4) 18.
Proof.
  intros H.
  by_byte_check b
    (fun v => negb ((0xF1 <=? v) && (v <=? 0xF4))
              || (128 <=? Z.shiftl (Z.land v utf8.mask4) 18)).
Qed.

Lemma second3_bound b : 0xA0 <= Z_of_byte b <= 0xBF ->
  128 <= Z.shiftl (Z.land (Z_of_byte b) utf8.maskx) 6.
Proof.
  intros H.
  by_byte_check b
    (fun v => negb ((0xA0 <=? v) && (v <=? 0xBF))
              || (128 <=? Z.shiftl (Z.land v utf8.maskx) 6)).
Qed.

Lemma second4_bound b : 0x90 <= Z_of_byte b <= 0xBF ->
  128 <= Z.shiftl (Z.land (Z_of_byte b) utf8.maskx) 12.
Proof.
  intros H.
  by_byte_check b
    (fun v => negb ((0x90 <=? v) && (v <=? 0xBF))
              || (128 <=? Z.shiftl (Z.land v utf8.maskx) 12)).
Qed.

Lemma part_nonneg b mask n : 0 <= mask -> 0 <= Z.shiftl (Z.land (Z_of_byte b) mask) n.
Proof.
  intros Hm. apply Z.shiftl_nonneg, Z.land_nonneg. now right.
Qed.

Lemma land_byte_nonneg b mask : 0 <= mask -> 0 <= Z.land (Z_of_byte b) mask.
Proof. intros Hm. apply Z.land_nonneg. now right. Qed.

Lemma lor_le_add a b : 0 <= a -> 0 <= b -> Z.lor a b <= a + b.
Proof.
  intros Ha Hb. pose proof (Z.add_lor_land a b) as H.
  assert (0 <= Z.land a b) by (apply Z.land_nonneg; now left).
  lia.
Qed.

Lemma lead2_upper b : Z.shiftl (Z.land (Z_of_byte b) utf8.mask2) 6 <= 0x7C0.
Proof.
  by_byte_check b (fun v => Z.shiftl (Z.land v utf8.mask2) 6 <=? 0x7C0).
Qed.

Lemma lead3_upper b : Z.shiftl (Z.land (Z_of_byte b) utf8.mask3) 12 <= 0xF000.
Proof.
  by_byte_check b (fun v => Z.shiftl (Z.land v utf8.mask3) 12 <=? 0xF000).
Qed.

Lemma lead4_upper_low b : 0xF0 <= Z_of_byte b <= 0xF3 ->
  Z.shiftl (Z.land (Z_of_byte b) utf8.mask4) 18 <= 0xC0000.
Proof.
  intros H.
  by_byte_check b
    (fun v => negb ((0xF0 <=? v) && (v <=? 0xF3))
              || (Z.shiftl (Z.land v utf8.mask4) 18 <=? 0xC0000)).
Qed.

Lemma lead4_upper b : 0xF0 <= Z_of_byte b <= 0xF4 ->
  Z.shiftl (Z.land (Z_of_byte b) utf8.mask4) 18 <= 0x100000.
Proof.
  intros H.
  by_byte_check b
    (fun v => negb ((0xF0 <=? v) && (v <=? 0xF4))
              || (Z.shiftl (Z.land v utf8.mask4) 18 <=? 0x100000)).
Qed.

Lemma cont_upper b : Z.land (Z_of_byte b) utf8.maskx <= 0x3F.
Proof. by_byte_check b (fun v => Z.land v utf8.maskx <=? 0x3F). Qed.

Lemma cont6_upper b : Z.shiftl (Z.land (Z_of_byte b) utf8.maskx) 6 <= 0xFC0.
Proof.
  by_byte_check b (fun v => Z.shiftl (Z.land v utf8.maskx) 6 <=? 0xFC0).
Qed.

Lemma cont12_upper b :
  Z.shiftl (Z.land (Z_of_byte b) utf8.maskx) 12 <= 0x3F000.
Proof.
  by_byte_check b (fun v => Z.shiftl (Z.land v utf8.maskx) 12 <=? 0x3F000).
Qed.

Lemma cont12_upper_low b : 0x80 <= Z_of_byte b <= 0x8F ->
  Z.shiftl (Z.land (Z_of_byte b) utf8.maskx) 12 <= 0xF000.
Proof.
  intros H.
  by_byte_check b
    (fun v => negb ((0x80 <=? v) && (v <=? 0x8F))
              || (Z.shiftl (Z.land v utf8.maskx) 12 <=? 0xF000)).
Qed.

(** ** [utf8]: decoding and encoding *)

Lemma decode_low b0 r0 : Z_of_byte b0 < utf8.RuneSelf ->
  utf8.DecodeRuneInString (String b0 r0) = (Z_of_byte b0, 1%nat).
Proof.
  intros H. unfold utf8.RuneSelf in H. unfold utf8.DecodeRuneInString, utf8.first.
  destruct (Z.ltb_spec (Z_of_byte b0) 128); [ reflexivity | lia ].
Qed.

Lemma highStep_error b0 r0 : utf8.RuneSelf <= Z_of_byte b0 ->
  highStep (String b0 r0) utf8.RuneError 1.
Proof.
  intros H. exists (String b0 ""), r0. repeat split; try easy.
  simpl. unfold utf8.RuneSelf in *. destruct (Z.leb_spec 128 (Z_of_byte b0)); [ reflexivity | lia ].
Qed.

(** A rune put together from non-negative parts is at most their sum. *)
Lemma lor2_le a b : 0 <= a -> 0 <= b -> 0 <= Z.lor a b <= a + b.
Proof.
  intros Ha Hb. split; [ now apply Z.lor_nonneg | now apply lor_le_add ].
Qed.

Lemma high_byte b : 128 <= Z_of_byte b -> (utf8.RuneSelf <=? Z_of_byte b) = true.
Proof. intros. apply Z.leb_le. exact H. Qed.

Lemma decodeSequence_high sz lo hi b0 r0 :
  utf8.RuneSelf <= Z_of_byte b0 -> utf8.RuneSelf <= lo -> hi <= utf8.hicb ->
  ((sz <= 2)%nat -> 128 <= Z.shiftl (Z.land (Z_of_byte b0) utf8.mask2) 6) ->
  (sz = 3%nat ->
     128 <= Z.shiftl (Z.land (Z_of_byte b0) utf8.mask3) 12 \/ 0xA0 <= lo) ->
  ((3 < sz)%nat ->
     128 <= Z.shiftl (Z.land (Z_of_byte b0) utf8.mask4) 18 \/ 0x90 <= lo) ->
  ((3 < sz)%nat ->
     Z.shiftl (Z.land (Z_of_byte b0) utf8.mask4) 18 <= 0xC0000
     \/ (Z.shiftl (Z.land (Z_of_byte b0) utf8.mask4) 18 <= 0x100000
         /\ hi <= 0x8F)) ->
  exists c w, utf8.decodeSequence sz (lo, hi) (String b0 r0) = (c, w)
              /\ highStep (String b0 r0) c w.
Proof.
  intros H0 Hlo Hhi V2 V3 V4 U4.
  pose proof (highStep_error b0 r0 H0) as Herr.
  unfold utf8.RuneSelf, utf8.hicb in *.
  unfold utf8.decodeSequence.
  destruct (String.length (String b0 r0) <? sz)%nat;
    [ eexists _, _; split; [ reflexivity | exact Herr ] | ].
  destruct r0 as [| b1 r1];
    [ eexists _, _; split; [ reflexivity | exact Herr ] | ].
  cbv [fst snd].
  destruct (Z.ltb_spec (Z_of_byte b1) lo) as [? | L1]; cbv [orb];
    [ eexists _, _; split; [ reflexivity | exact Herr ] | ].
  destruct (Z.ltb_spec hi (Z_of_byte b1)) as [? | U1];
    [ eexists _, _; split; [ reflexivity | exact Herr ] | ].
  pose proof (land_byte_nonneg b1 utf8.maskx ltac:(easy)) as N1.
  pose proof (part_nonneg b1 utf8.maskx 6 ltac:(easy)) as N1a.
  pose proof (part_nonneg b1 utf8.maskx 12 ltac:(easy)) as N1b.
  destruct (Nat.leb_spec sz 2) as [S2 | S2].
  { (* two bytes *)
    eexists _, _; split; [ reflexivity | ].
    exists (String b0 (String b1 "")), r1. repeat split; try easy.
    - simpl. rewrite !high_byte by lia. reflexivity.
    - pose proof (le_lor_l (Z.shiftl (Z.land (Z_of_byte b0) utf8.mask2) 6) _ N1).
      specialize (V2 S2). unfold unicode.MaxASCII. lia.
    - pose proof (lor2_le _ _ (part_nonneg b0 utf8.mask2 6 ltac:(easy)) N1).
      pose proof (lead2_upper b0). pose proof (cont_upper b1).
      unfold utf8.MaxRune. lia. }
  destruct r1 as [| b2 r2];
    [ eexists _, _; split; [ reflexivity | exact Herr ] | ].
  unfold utf8.locb, utf8.hicb.
  destruct (Z.ltb_spec (Z_of_byte b2) 128) as [? | L2]; cbv [orb];
    [ eexists _, _; split; [ reflexivity | exact Herr ] | ].
  destruct (Z.ltb_spec 191 (Z_of_byte b2)) as [? | U2];
    [ eexists _, _; split; [ reflexivity | exact Herr ] | ].
  pose proof (land_byte_nonneg b2 utf8.maskx ltac:(easy)) as N2.
  pose proof (part_nonneg b2 utf8.maskx 6 ltac:(easy)) as N2a.
  pose proof (part_nonneg b0 utf8.mask3 12 ltac:(easy)) as N0a.
  pose proof (part_nonneg b0 utf8.mask4 18 ltac:(easy)) as N0b.
  destruct (Nat.leb_spec sz 3) as [S3 | S3].
  { (* three bytes *)
    eexists _, _; split; [ reflexivity | ].
    exists (String b0 (String b1 (String b2 ""))), r2. repeat split; try easy.
    - simpl. rewrite !high_byte by lia. reflexivity.
    - set (A := Z.shiftl (Z.land (Z_of_byte b0) utf8.mask3) 12) in *.
      set (B := Z.shiftl (Z.land (Z_of_byte b1) utf8.maskx) 6) in *.
      pose proof (le_lor_l (Z.lor A B) _ N2).
      pose proof (le_lor_l A B N1a). pose proof (le_lor_r A B N0a).
      assert (128 <= B \/ 128 <= A) as [? | ?].
      { destruct (V3 ltac:(lia)) as [? | ?]; [ now right | left ].
        apply second3_bound. lia. }
      all: unfold unicode.MaxASCII; lia.
    - pose proof (lor2_le _ _ N0a N1a) as [? ?].
      pose proof (lor2_le _ (Z.land (Z_of_byte b2) utf8.maskx)
                    ltac:(eassumption) N2).
      pose proof (lead3_upper b0). pose proof (cont6_upper b1).
      pose proof (cont_upper b2). unfold utf8.MaxRune. lia. }
  destruct r2 as [| b3 r3];
    [ eexists _, _; split; [ reflexivity | exact Herr ] | ].
  destruct (Z.ltb_spec (Z_of_byte b3) 128) as [? | L3]; cbv [orb];
    [ eexists _, _; split; [ reflexivity | exact Herr ] | ].
  destruct (Z.ltb_spec 191 (Z_of_byte b3)) as [? | U3];
    [ eexists _, _; split; [ reflexivity | exact Herr ] | ].
  pose proof (land_byte_nonneg b3 utf8.maskx ltac:(easy)) as N3.
  eexists _, _; split; [ reflexivity | ].
  exists (String b0 (String b1 (String b2 (String b3 "")))), r3.
  repeat split; try easy.
  - simpl. rewrite !high_byte by lia. reflexivity.
  - set (A := Z.shiftl (Z.land (Z_of_byte b0) utf8.mask4) 18) in *.
    set (B := Z.shiftl (Z.land (Z_of_byte b1) utf8.maskx) 12) in *.
    set (C := Z.shiftl (Z.land (Z_of_byte b2) utf8.maskx) 6) in *.
    pose proof (le_lor_l (Z.lor (Z.lor A B) C) _ N3).
    pose proof (le_lor_l (Z.lor A B) C N2a).
    pose proof (le_lor_l A B N1b). pose proof (le_lor_r A B N0b).
    assert (128 <= B \/ 128 <= A) as [? | ?].
    { destruct (V4 ltac:(lia)) as [? | ?]; [ now right | left ].
      apply second4_bound. lia. }
    all: unfold unicode.MaxASCII; lia.
  - pose proof (lor2_le _ _ N0b N1b) as [HAB0 HAB].
    pose proof (lor2_le _ _ HAB0 N2a) as [HABC0 HABC].
    pose proof (lor2_le _ _ HABC0 N3) as [_ HABCD].
    pose proof (cont6_upper b2). pose proof (cont_upper b3).
    pose proof (cont12_upper b1).
    destruct (U4 ltac:(lia)) as [HA | [HA Hhi8]].
    + unfold utf8.MaxRune. lia.
    + pose proof (cont12_upper_low b1 ltac:(lia)). unfold utf8.MaxRune. lia.
Qed.

Lemma decode_high b0 r0 : utf8.RuneSelf <= Z_of_byte b0 ->
  exists c w, utf8.DecodeRuneInString (String b0 r0) = (c, w)
              /\ highStep (String b0 r0) c w.
Proof.
  intros H. pose proof (highStep_error b0 r0 H) as Herr.
  pose proof (decodeSequence_high) as D.
  unfold utf8.RuneSelf in H.
  unfold utf8.DecodeRuneInString, utf8.first.
  repeat match goal with
  | |- context [ Z_of_byte b0 <? ?b ] => destruct (Z.ltb_spec (Z_of_byte b0) b)
  | |- context [ Z_of_byte b0 =? ?b ] => destruct (Z.eqb_spec (Z_of_byte b0) b)
         end; try lia.
  all: match goal with
       | |- context [ utf8.as_ <=? ?x ] =>
         let v := eval vm_compute in (utf8.as_ <=? x) in
         change (utf8.as_ <=? x) with v; cbv iota
       end.
  all: try (eexists _, _; split; [ reflexivity | exact Herr ]).
  all: match goal with
       | |- context [ utf8.decodeSequence ?sz ?acc _ ] =>
         let v := eval vm_compute in sz in
         let a := eval vm_compute in acc in
         change sz with v; change acc with a
       end.
  all: apply decodeSequence_high; unfold utf8.RuneSelf, utf8.hicb; try lia.
  all: intros; try lia.
  all: match goal with
       | |- 128 <= Z.shiftl (Z.land _ utf8.mask2) 6 => apply lead2_bound; lia
       | |- 128 <= Z.shiftl (Z.land _ utf8.mask3) 12 \/ _ =>
         first [ right; lia | left; apply lead3_bound; lia ]
       | |- 128 <= Z.shiftl (Z.land _ utf8.mask4) 18 \/ _ =>
         first [ right; lia | left; apply lead4_bound; lia ]
       | |- Z.shiftl (Z.land _ utf8.mask4) 18 <= _ \/ _ =>
         first [ left; apply lead4_upper_low; lia
               | right; split; [ apply lead4_upper; lia | lia ] ]
       end.
Qed.

Lemma AppendRune_low r : 0 <= r <= unicode.MaxASCII ->
  utf8.AppendRune r = String (byte_of_Z r) "".
Proof.
  intros H. unfold unicode.MaxASCII in H. unfold utf8.AppendRune.
  rewrite Z.mod_small by lia. unfold utf8.rune1Max.
  destruct (Z.leb_spec r 127); [ reflexivity | lia ].
Qed.

Lemma high_lead t x : Z.testbit t 7 = true ->
  (utf8.RuneSelf <=? Z_of_byte (byte_of_Z (Z.lor t x))) = true.
Proof. intros H. apply Z.leb_le. now apply high_bit_byte. Qed.

Lemma encode3_high r : utf8.encode3 r <> "" /\ allHigh (utf8.encode3 r) = true.
Proof.
  split; [ discriminate | ].
  unfold utf8.encode3. cbn [allHigh]. rewrite !high_lead by reflexivity.
  reflexivity.
Qed.

Lemma AppendRune_high r : unicode.MaxASCII < r <= utf8.MaxRune ->
  utf8.AppendRune r <> "" /\ allHigh (utf8.AppendRune r) = true.
Proof.
  intros H. unfold unicode.MaxASCII, utf8.MaxRune in H. unfold utf8.AppendRune.
  rewrite Z.mod_small by lia. unfold utf8.rune1Max.
  destruct (Z.leb_spec r 127); [ lia | ].
  destruct (r <=? utf8.rune2Max).
  { split; [ discriminate | ]. cbn [allHigh].
    rewrite !high_lead by reflexivity. reflexivity. }
  destruct ((utf8.MaxRune <? r) || ((utf8.surrogateMin <=? r) && (r <=? utf8.surrogateMax)));
    [ apply encode3_high | ].
  destruct (r <=? utf8.rune3Max); [ apply encode3_high | ].
  split; [ discriminate | ]. cbn [allHigh].
  rewrite !high_lead by reflexivity. reflexivity.
Qed.

(** ** [strings.Index] finds an occurrence exactly when there is one *)

Lemma IndexFrom_occurs s substr : forall i, 0 <= i ->
  (0 <=? strings.IndexFrom i s substr) = occurs s substr.
Proof.
  induction s as [| c s IH]; intros i Hi.
  - cbn [strings.IndexFrom occurs].
    destruct (String.prefix substr ""); cbn [orb].
    + now apply Z.leb_le.
    + reflexivity.
  - cbn [strings.IndexFrom occurs].
    destruct (String.prefix substr (String c s)); cbn [orb].
    + now apply Z.leb_le.
    + apply IH. lia.
Qed.

Lemma Contains_occurs s substr : strings.Contains s substr = occurs s substr.
Proof. unfold strings.Contains, strings.Index. now apply IndexFrom_occurs. Qed.

(** ** Letter case and occurrences *)

Lemma prefix_cons p pat c s :
  String.prefix (String p pat) (String c s) = true <->
  p = c /\ String.prefix pat s = true.
Proof.
  cbn [String.prefix]. destruct (ascii_dec p c) as [-> | Hne]; split.
  - intros H. now split.
  - now intros [_ H].
  - discriminate.
  - intros [H _]. contradiction.
Qed.

Lemma prefix_nil_l s : String.prefix "" s = true.
Proof. destruct s; reflexivity. Qed.

Lemma prefix_nil_r pat : String.prefix pat "" = true -> pat = "".
Proof. destruct pat; [ reflexivity | discriminate ]. Qed.

Lemma occurs_cons c s pat : occurs s pat = true -> occurs (String c s) pat = true.
Proof. intros H. cbn [occurs]. rewrite H. apply orb_true_r. Qed.

Lemma occurs_app p s pat : occurs s pat = true -> occurs (p ++ s) pat = true.
Proof.
  induction p as [| c p IH]; intros H; [ exact H | ].
  cbn [append]. apply occurs_cons. now apply IH.
Qed.

Lemma containsAnyCase_cons c s pat :
  containsAnyCase s pat = true -> containsAnyCase (String c s) pat = true.
Proof. intros H. cbn [containsAnyCase]. rewrite H. apply orb_true_r. Qed.

Lemma containsAnyCase_app q s pat :
  containsAnyCase s pat = true -> containsAnyCase (q ++ s) pat = true.
Proof.
  induction q as [| c q IH]; intros H; [ exact H | ].
  cbn [append]. apply containsAnyCase_cons. now apply IH.
Qed.

Lemma containsAnyCase_nil s : containsAnyCase s "" = true.
Proof. destruct s; reflexivity. Qed.

Lemma occurs_nil s : occurs s "" = true.
Proof. destruct s; reflexivity. Qed.

Lemma lowerByte_low c : Z_of_byte c < utf8.RuneSelf ->
  Z_of_byte (strings.lowerByte c) < utf8.RuneSelf.
Proof.
  unfold utf8.RuneSelf, strings.lowerByte, strings.isUpperByte. intros H.
  destruct (Z.leb_spec 65 (Z_of_byte c)); cbn [andb]; [ | exact H ].
  destruct (Z.leb_spec (Z_of_byte c) 90); [ | exact H ].
  rewrite Z_of_byte_of_Z. rewrite Z.mod_small by lia. lia.
Qed.

Lemma sameLetter_lower p c :
  Z_of_byte p < utf8.RuneSelf -> strings.isUpperByte p = false ->
  sameLetter p c = true ->
  Z_of_byte c < utf8.RuneSelf /\ strings.lowerByte c = p.
Proof.
  unfold utf8.RuneSelf, sameLetter, strings.lowerByte. intros Hp Hu H.
  apply orb_true_iff in H as [H | H].
  - apply Ascii.eqb_eq in H. subst c. rewrite Hu. now split.
  - apply andb_true_iff in H as [H H3]. apply andb_true_iff in H as [H1 H2].
    apply Z.leb_le in H1, H2. apply Z.eqb_eq in H3.
    split; [ lia | ].
    unfold strings.isUpperByte.
    destruct (Z.leb_spec 65 (Z_of_byte c)); [ | lia ].
    destruct (Z.leb_spec (Z_of_byte c) 90); [ | lia ].
    cbn [andb]. rewrite H3.
    replace (Z_of_byte p - 32 + (97 - 65)) with (Z_of_byte p) by lia.
    apply byte_of_Z_of_byte.
Qed.

Lemma lower_sameLetter c :
  Z_of_byte c < utf8.RuneSelf -> sameLetter (strings.lowerByte c) c = true.
Proof.
  unfold utf8.RuneSelf, sameLetter, strings.lowerByte, strings.isUpperByte.
  intros H.
  destruct (Z.leb_spec 65 (Z_of_byte c)); cbn [andb];
    [ | rewrite Ascii.eqb_refl; reflexivity ].
  destruct (Z.leb_spec (Z_of_byte c) 90);
    [ | rewrite Ascii.eqb_refl; reflexivity ].
  apply orb_true_iff. right.
  rewrite Z_of_byte_of_Z. rewrite Z.mod_small by lia.
  repeat (apply andb_true_iff; split).
  - apply Z.leb_le. lia.
  - apply Z.leb_le. lia.
  - apply Z.eqb_eq. lia.
Qed.

Lemma sameLetter_low p c :
  Z_of_byte p < utf8.RuneSelf -> sameLetter p c = true ->
  Z_of_byte c < utf8.RuneSelf.
Proof.
  unfold utf8.RuneSelf, sameLetter. intros Hp H.
  apply orb_true_iff in H as [H | H].
  - apply Ascii.eqb_eq in H. now subst c.
  - apply andb_true_iff in H as [_ H3]. apply Z.eqb_eq in H3. lia.
Qed.

Lemma allHigh_head c q : allHigh (String c q) = true -> utf8.RuneSelf <= Z_of_byte c.
Proof.
  cbn [allHigh]. intros H. apply andb_true_iff in H as [H _].
  now apply Z.leb_le.
Qed.

Section Alignment.

(** What is known of the bytes that replace a rune above ASCII. *)
Variable P : string -> Prop.

Lemma aligned_inv_low c t o :
  aligned P (String c t) o -> Z_of_byte c < utf8.RuneSelf ->
  exists o', o = String (strings.lowerByte c) o' /\ aligned P t o'.
Proof.
  intros H Hc. inversion H as [| c' t' o' _ Ht Heq | q p t' o' Hq Hh _ _ Heq ].
  - subst. now exists o'.
  - destruct q as [| b q]; [ contradiction | ].
    cbn [append] in Heq. injection Heq as -> _.
    apply allHigh_head in Hh. lia.
Qed.

Lemma aligned_prefix pat : lowerPattern pat = true ->
  forall t o, aligned P t o -> prefixAnyCase pat t = true ->
              String.prefix pat o = true.
Proof.
  induction pat as [| p pat IH]; intros Hpat t o Hal Hpre.
  - apply prefix_nil_l.
  - cbn [lowerPattern] in Hpat.
    apply andb_true_iff in Hpat as [Hp Hpat].
    apply andb_true_iff in Hp as [Hlow Hup].
    apply Z.ltb_lt in Hlow. apply negb_true_iff in Hup.
    destruct t as [| c t]; [ discriminate | ].
    cbn [prefixAnyCase] in Hpre. apply andb_true_iff in Hpre as [Hs Hpre].
    destruct (sameLetter_lower p c Hlow Hup Hs) as [Hc Hl].
    destruct (aligned_inv_low c t o Hal Hc) as [o' [-> Hal']].
    apply prefix_cons. split; [ now symmetry | ].
    now apply (IH Hpat t o').
Qed.

Lemma containsAnyCase_skip_high pat q t :
  strings.isASCII pat = true -> pat <> "" -> allHigh q = true ->
  containsAnyCase (q ++ t) pat = true -> containsAnyCase t pat = true.
Proof.
  intros Hpat Hne. induction q as [| b q IH]; intros Hq H; [ exact H | ].
  cbn [append containsAnyCase] in H. apply orb_true_iff in H as [H | H].
  - destruct pat as [| p pat]; [ contradiction | ].
    cbn [prefixAnyCase] in H. apply andb_true_iff in H as [H _].
    cbn [strings.isASCII] in Hpat. apply andb_true_iff in Hpat as [Hp _].
    apply Z.ltb_lt in Hp. apply (sameLetter_low p b Hp) in H.
    apply allHigh_head in Hq. lia.
  - apply IH; [ | exact H ].
    cbn [allHigh] in Hq. now apply andb_true_iff in Hq as [_ Hq].
Qed.

Lemma lowerPattern_isASCII pat : lowerPattern pat = true -> strings.isASCII pat = true.
Proof.
  induction pat as [| p pat IH]; [ reflexivity | ].
  cbn [lowerPattern strings.isASCII]. intros H.
  apply andb_true_iff in H as [H Hpat]. apply andb_true_iff in H as [H _].
  rewrite H. now rewrite IH.
Qed.

(** Completeness: an occurrence in any case in the text is an occurrence
    of the pattern in the lowered text. *)
Lemma aligned_complete pat : lowerPattern pat = true ->
  forall t o, aligned P t o -> containsAnyCase t pat = true ->
              occurs o pat = true.
Proof.
  intros Hpat t o Hal. induction Hal as [| c t o Hc Hal IH | q p t o Hq Hh _ Hal IH ];
    intros H.
  - destruct pat; [ reflexivity | discriminate ].
  - cbn [containsAnyCase] in H. apply orb_true_iff in H as [H | H].
    + cbn [occurs].
      rewrite (aligned_prefix pat Hpat (String c t) _
                 (aligned_ascii P c t o Hc Hal) H).
      reflexivity.
    + apply occurs_cons. now apply IH.
  - destruct pat as [| p0 pat]; [ apply occurs_nil | ].
    apply occurs_app. apply IH.
    apply (containsAnyCase_skip_high _ q t); try easy.
    now apply lowerPattern_isASCII.
Qed.

End Alignment.

Section Soundness.

Variable pat0 : string.

Lemma aligned_inv_out p o t :
  aligned (blocker pat0) t (String p o) -> In p (list_ascii_of_string pat0) ->
  exists c t', t = String c t' /\ Z_of_byte c < utf8.RuneSelf
               /\ strings.lowerByte c = p /\ aligned (blocker pat0) t' o.
Proof.
  intros H Hin.
  inversion H as [| c t' o' Hc Hal [Ht] [Hp Ho] | q p' t' o' _ _ [Hne Hb] _ Ht Ho ].
  - subst. now exists c, t'.
  - destruct p' as [| b p']; [ contradiction | ].
    cbn [append] in Ho. injection Ho as -> _.
    exfalso. apply (Hb p); [ now left | exact Hin ].
Qed.

Lemma aligned_prefix_sound pat :
  (forall b, In b (list_ascii_of_string pat) ->
             In b (list_ascii_of_string pat0)) ->
  forall t o, aligned (blocker pat0) t o -> String.prefix pat o = true ->
              prefixAnyCase pat t = true.
Proof.
  induction pat as [| p pat IH]; intros Hsub t o Hal Hpre; [ reflexivity | ].
  destruct o as [| c o]; [ discriminate | ].
  apply prefix_cons in Hpre as [<- Hpre].
  destruct (aligned_inv_out p o t Hal) as [c [t' [-> [Hc [Hl Hal']]]]].
  { apply Hsub. now left. }
  cbn [prefixAnyCase]. apply andb_true_iff. split.
  - rewrite <- Hl. now apply lower_sameLetter.
  - apply (IH (fun b Hb => Hsub b (or_intror Hb)) t' o Hal' Hpre).
Qed.

Lemma occurs_skip_blocker p o :
  pat0 <> "" -> (blocker pat0) p -> occurs (p ++ o) pat0 = true ->
  occurs o pat0 = true.
Proof.
  intros Hne [_ Hb]. induction p as [| b p IH]; intros H; [ exact H | ].
  cbn [append occurs] in H. apply orb_true_iff in H as [H | H].
  - destruct pat0 as [| x pat]; [ contradiction | ].
    apply prefix_cons in H as [-> _].
    exfalso. apply (Hb b); now left.
  - apply IH; [ | exact H ].
    intros b' Hb'. apply Hb. now right.
Qed.

(** Soundness: an occurrence of the pattern in the lowered text comes
    from an occurrence in some case in the text. *)
Lemma aligned_sound t o :
  aligned (blocker pat0) t o -> occurs o pat0 = true ->
  containsAnyCase t pat0 = true.
Proof.
  intros Hal.
  induction Hal as [| c t o Hc Hal IH | q p t o Hq Hh Hp Hal IH ]; intros H.
  - cbn [occurs] in H. rewrite orb_false_r in H.
    apply prefix_nil_r in H. rewrite H. reflexivity.
  - cbn [occurs] in H. apply orb_true_iff in H as [H | H].
    + cbn [containsAnyCase].
      rewrite (aligned_prefix_sound pat0 (fun _ Hb => Hb) (String c t) _
                 (aligned_ascii (blocker pat0) c t o Hc Hal) H).
      reflexivity.
    + apply containsAnyCase_cons. now apply IH.
  - destruct (string_dec pat0 "") as [He | Hne].
    + rewrite He. apply containsAnyCase_nil.
    + apply containsAnyCase_app. apply IH.
      now apply (occurs_skip_blocker p o).
Qed.

End Soundness.

(** *** The lowered text is aligned with the text *)

Lemma unicode_ToLower_low lc c : Z_of_byte c < utf8.RuneSelf ->
  unicode.ToLower lc (Z_of_byte c) = Z_of_byte (strings.lowerByte c).
Proof.
  unfold utf8.RuneSelf, unicode.ToLower, unicode.MaxASCII, strings.lowerByte,
    strings.isUpperByte.
  intros H. destruct (Z.leb_spec (Z_of_byte c) 127); [ | lia ].
  destruct ((65 <=? Z_of_byte c) && (Z_of_byte c <=? 90)) eqn:E;
    [ | reflexivity ].
  apply andb_true_iff in E as [E1 E2]. apply Z.leb_le in E1, E2.
  rewrite Z_of_byte_of_Z. rewrite Z.mod_small by lia. reflexivity.
Qed.

Lemma unicode_ToLower_high lc c : unicode.MaxASCII < c ->
  unicode.ToLower lc c = lc c.
Proof.
  unfold unicode.ToLower. intros H.
  destruct (Z.leb_spec c unicode.MaxASCII); [ lia | reflexivity ].
Qed.

Lemma length_append (a b : string) :
  String.length (a ++ b) = (String.length a + String.length b)%nat.
Proof. induction a as [| c a IH]; cbn; [ reflexivity | now rewrite IH ]. Qed.

Section Lowering.

Variable lc : Z -> Z.
Variable P : string -> Prop.

Hypothesis P_written :
  forall c, unicode.MaxASCII < c <= utf8.MaxRune -> P (written lc c).

Lemma MapLoop_aligned fuel : forall s, (String.length s <= fuel)%nat ->
  aligned P s (strings.MapLoop fuel (unicode.ToLower lc) s).
Proof.
  induction fuel as [| fuel IH]; intros s Hlen.
  - destruct s; [ constructor | cbn in Hlen; lia ].
  - destruct s as [| b0 r0]; [ constructor | ].
    cbn [strings.MapLoop].
    destruct (Z.lt_ge_cases (Z_of_byte b0) utf8.RuneSelf) as [Hlow | Hhigh].
    + rewrite (decode_low b0 r0 Hlow).
      rewrite (unicode_ToLower_low lc b0 Hlow).
      pose proof (lowerByte_low b0 Hlow) as Hl.
      pose proof (Z_of_byte_range (strings.lowerByte b0)) as Hr.
      unfold utf8.RuneSelf in Hl.
      destruct (Z.leb_spec 0 (Z_of_byte (strings.lowerByte b0))); [ | lia ].
      rewrite AppendRune_low by (unfold unicode.MaxASCII; lia).
      rewrite byte_of_Z_of_byte. cbn [append skip].
      constructor; [ exact Hlow | ].
      apply IH. cbn in Hlen. lia.
    + destruct (decode_high b0 r0 Hhigh) as [c [w [Hd Hs]]].
      rewrite Hd.
      destruct Hs as [q [t [Hqt [Hskip [Hq [Hh Hc]]]]]].
      rewrite Hskip. rewrite Hqt.
      apply (aligned_block P q (written lc c) t); try assumption.
      * now apply P_written.
      * apply IH. rewrite Hqt in Hlen. rewrite length_append in Hlen.
        destruct q; [ contradiction | cbn in Hlen; lia ].
Qed.

Lemma lowerASCII_aligned s : strings.isASCII s = true ->
  aligned P s (strings.lowerASCII s).
Proof.
  induction s as [| c s IH]; intros H; [ constructor | ].
  cbn [strings.isASCII] in H. apply andb_true_iff in H as [Hc H].
  apply Z.ltb_lt in Hc. cbn [strings.lowerASCII].
  constructor; [ exact Hc | now apply IH ].
Qed.

Lemma ToLower_aligned s : aligned P s (strings.ToLower lc s).
Proof.
  unfold strings.ToLower. destruct (strings.isASCII s) eqn:E.
  - now apply lowerASCII_aligned.
  - apply MapLoop_aligned. lia.
Qed.

End Lowering.

Lemma isASCII_low pat : strings.isASCII pat = true ->
  forall b, In b (list_ascii_of_string pat) -> Z_of_byte b < utf8.RuneSelf.
Proof.
  induction pat as [| p pat IH]; intros H b Hb; [ contradiction | ].
  cbn [strings.isASCII] in H. apply andb_true_iff in H as [Hp H].
  destruct Hb as [<- | Hb]; [ now apply Z.ltb_lt | now apply IH ].
Qed.

Lemma allHigh_high q : allHigh q = true ->
  forall b, In b (list_ascii_of_string q) -> utf8.RuneSelf <= Z_of_byte b.
Proof.
  induction q as [| c q IH]; intros H b Hb; [ contradiction | ].
  cbn [allHigh] in H. apply andb_true_iff in H as [Hc H].
  destruct Hb as [<- | Hb]; [ now apply Z.leb_le | now apply IH ].
Qed.

Lemma written_blocker `{tables : CaseTables} pat :
  strings.isASCII pat = true -> lowersOutside pat ->
  forall c, unicode.MaxASCII < c <= utf8.MaxRune ->
    blocker pat (written lowerCase c).
Proof.
  intros Hpat Hout c Hc. unfold written.
  rewrite (unicode_ToLower_high lowerCase c (proj1 Hc)).
  destruct (Hout c Hc) as [[H0 Hmax] Hnot].
  destruct (Z.leb_spec 0 (lowerCase c)); [ | lia ].
  destruct (Z.le_gt_cases (lowerCase c) unicode.MaxASCII) as [Hlow | Hhigh].
  - rewrite AppendRune_low by lia. split; [ discriminate | ].
    intros b [<- | []] Hin. apply Hnot. unfold bytes.
    apply in_map_iff. exists (byte_of_Z (lowerCase c)). split; [ | exact Hin ].
    rewrite Z_of_byte_of_Z. unfold unicode.MaxASCII in Hlow.
    apply Z.mod_small. lia.
  - assert (Hx : unicode.MaxASCII < lowerCase c <= utf8.MaxRune) by (split; assumption).
    destruct (AppendRune_high (lowerCase c) Hx) as [Hne Hh].
    split; [ exact Hne | ].
    intros b Hb Hin.
    pose proof (allHigh_high _ Hh b Hb). pose proof (isASCII_low _ Hpat b Hin).
    lia.
Qed.

Lemma ToLower_contains_complete `{tables : CaseTables} pat s :
  lowerPattern pat = true -> containsAnyCase s pat = true ->
  strings.Contains (strings.ToLower lowerCase s) pat = true.
Proof.
  intros Hpat H. rewrite Contains_occurs.
  apply (aligned_complete (fun _ => True) pat Hpat s); [ | exact H ].
  apply ToLower_aligned. intros; exact I.
Qed.

Lemma ToLower_contains_sound `{tables : CaseTables} pat s :
  strings.isASCII pat = true -> lowersOutside pat ->
  strings.Contains (strings.ToLower lowerCase s) pat = true ->
  containsAnyCase s pat = true.
Proof.
  intros Hpat Hout H. rewrite Contains_occurs in H.
  apply (aligned_sound pat s (strings.ToLower lowerCase s)); [ | exact H ].
  apply ToLower_aligned. now apply written_blocker.
Qed.

Lemma prefix_prefixAnyCase pat : forall s,
  String.prefix pat s = true -> prefixAnyCase pat s = true.
Proof.
  induction pat as [| p pat IH]; intros s H; [ reflexivity | ].
  destruct s as [| c s]; [ discriminate | ].
  apply prefix_cons in H as [<- H]. cbn [prefixAnyCase].
  unfold sameLetter. rewrite Ascii.eqb_refl. cbn [orb andb]. now apply IH.
Qed.

Lemma occurs_containsAnyCase pat s :
  occurs s pat = true -> containsAnyCase s pat = true.
Proof.
  induction s as [| c s IH]; cbn [occurs containsAnyCase]; intros H.
  - rewrite orb_false_r in *. now apply prefix_prefixAnyCase.
  - apply orb_true_iff in H as [H | H].
    + now rewrite prefix_prefixAnyCase.
    + rewrite IH by exact H. apply orb_true_r.
Qed.

(** ** The reading of "contains, in any letter case" *)

(** [containsAnyCase] says what its name says: some stretch of the text,
    as long as the pattern, equals it letter by letter up to case. *)
Lemma prefixAnyCase_split pat : forall s,
  prefixAnyCase pat s = true <->
  exists w post, s = w ++ post /\ String.length w = String.length pat
                 /\ prefixAnyCase pat w = true.
Proof.
  induction pat as [| p pat IH]; intros s.
  - split; [ intros _; exists "", s; repeat split | reflexivity ].
  - split.
    + destruct s as [| c s]; [ discriminate | ].
      cbn [prefixAnyCase]. intros H. apply andb_true_iff in H as [Hc H].
      apply IH in H as [w [post [-> [Hlen Hw]]]].
      exists (String c w), post. repeat split.
      * cbn. now rewrite Hlen.
      * cbn [prefixAnyCase]. now rewrite Hc, Hw.
    + intros [w [post [-> [Hlen Hw]]]].
      destruct w as [| c w]; [ discriminate | ].
      cbn [prefixAnyCase append] in *. apply andb_true_iff in Hw as [Hc Hw].
      rewrite Hc. cbn [andb]. apply IH. exists w, post. repeat split.
      * cbn in Hlen. now injection Hlen.
      * exact Hw.
Qed.

Lemma containsAnyCase_spec s pat :
  containsAnyCase s pat = true <->
  exists pre w post, s = pre ++ w ++ post
                     /\ String.length w = String.length pat
                     /\ prefixAnyCase pat w = true.
Proof.
  induction s as [| c s IH].
  - cbn [containsAnyCase]. rewrite orb_false_r. rewrite prefixAnyCase_split.
    split.
    + intros [w [post H]]. now exists "", w, post.
    + intros [pre [w [post [Hs H]]]].
      destruct pre; [ now exists w, post | discriminate ].
  - cbn [containsAnyCase]. rewrite orb_true_iff, IH, prefixAnyCase_split.
    split.
    + intros [[w [post H]] | [pre [w [post [-> H]]]]].
      * now exists "", w, post.
      * now exists (String c pre), w, post.
    + intros [pre [w [post [Hs H]]]]. destruct pre as [| c' pre].
      * left. now exists w, post.
      * right. cbn [append] in Hs. injection Hs as _ ->.
        now exists pre, w, post.
Qed.

Example hello_in_capitals : containsAnyCase "HELLO" "hello" = true.
Proof. reflexivity. Qed.

Example hello_in_mixed_case :
  containsAnyCase "well, hElLo there" "hello" = true.
Proof. reflexivity. Qed.

Example hello_broken : containsAnyCase "hell o" "hello" = false.
Proof. reflexivity. Qed.

Example hello_not_letters : containsAnyCase "(%,,/" "hello" = false.
Proof. reflexivity. Qed.

(** ** The handlers *)

Lemma append_nil_r (s : string) : s ++ "" = s.
Proof. induction s as [| c s IH]; cbn; [ reflexivity | now rewrite IH ]. Qed.

Lemma Sprintf_echo u t :
  fmt.Sprintf "Hello %s! You said: %s" [u; t]
  = "Hello " ++ u ++ "! You said: " ++ t.
Proof. cbn. rewrite append_nil_r. reflexivity. Qed.

Lemma Sprintf_greeting u : fmt.Sprintf "Hello %s" [u] = "Hello " ++ u.
Proof. cbn. rewrite append_nil_r. reflexivity. Qed.

Lemma Sprintf_service u :
  fmt.Sprintf "How can I help you %s" [u] = "How can I help you " ++ u.
Proof. cbn. rewrite append_nil_r. reflexivity. Qed.

(** Unfolding the monad and the calls to the outside. *)
Ltac unfold_calls :=
  cbv beta iota delta
    [bind ret emit log_Printf log_Println log_Fatal time_Now
     client_GetUserInfo client_PostMessage socketClient_Ack
     result_of world_of calls_of].

Section Facts.

Context {World : Type} {clock : time.Clock World} {tables : CaseTables}.
Variable client : slack.Client World.
Variable socketClient : socketmode.Client World.

Lemma handleHelloCommand_run command w :
  handleHelloCommand command client w
  = let '(now, w1) := time.Now w in
    let a := echoAttachment (time.Format now dateLayout)
               (slack.UserName command) (slack.CommandText command) in
    let '(r, w2) := slack.PostMessage client (slack.ChannelID command)
                      [slack.MsgOptionAttachments [a]] w1 in
    (postError r, w2,
     [CallPostMessage (slack.ChannelID command)
        [slack.MsgOptionAttachments [a]]]).
Proof.
  unfold handleHelloCommand. unfold_calls.
  destruct (time.Now w) as [now w1].
  unfold slack.setColor, slack.setText, slack.setFields, slack.zeroAttachment.
  cbn [slack.Color slack.Pretext slack.Text slack.Fields
       slack.AttachmentBlocks].
  rewrite Sprintf_echo.
  fold (contextFields (time.Format now dateLayout) (slack.UserName command)).
  fold (echoAttachment (time.Format now dateLayout) (slack.UserName command)
          (slack.CommandText command)).
  destruct (slack.PostMessage client _ _ w1) as [[v | err] w2]; reflexivity.
Qed.

Lemma handleAppMentionEvent_run event w :
  handleAppMentionEvent event client w
  = let '(r, w1) := slack.GetUserInfo client (slackevents.User event) w in
    match r with
    | Err err => (Some err, w1, [CallGetUserInfo (slackevents.User event)])
    | Ok user =>
      let '(now, w2) := time.Now w1 in
      let date := time.Format now dateLayout in
      let a :=
        if strings.Contains
             (strings.ToLower lowerCase (slackevents.Text event)) "hello"
        then greetingAttachment date (slack.Name user)
        else serviceAttachment date (slack.Name user) in
      let '(r, w3) := slack.PostMessage client (slackevents.Channel event)
                        [slack.MsgOptionAttachments [a]] w2 in
      (postError r, w3,
       [CallGetUserInfo (slackevents.User event);
        CallPostMessage (slackevents.Channel event)
          [slack.MsgOptionAttachments [a]]])
    end.
Proof.
  unfold handleAppMentionEvent. unfold_calls.
  destruct (slack.GetUserInfo client _ w) as [[user | err] w1];
    [ | reflexivity ].
  destruct (time.Now w1) as [now w2].
  unfold slack.setColor, slack.setText, slack.setPretext, slack.setFields,
    slack.zeroAttachment.
  cbn [slack.Color slack.Pretext slack.Text slack.Fields
       slack.AttachmentBlocks].
  rewrite Sprintf_greeting, Sprintf_service.
  fold (contextFields (time.Format now dateLayout) (slack.Name user)).
  fold (greetingAttachment (time.Format now dateLayout) (slack.Name user)).
  fold (serviceAttachment (time.Format now dateLayout) (slack.Name user)).
  cbv zeta.
  destruct (strings.Contains _ "hello");
    destruct (slack.PostMessage client _ _ w2) as [[v | err] w3]; reflexivity.
Qed.


Lemma handleIsArticleGood_run command w :
  exists a cb,
    handleIsArticleGood command client w = ((Some a, None), w, [])
    /\ checkboxGroups a = [cb]
    /\ List.map optionLabel (slack.Options cb) = ["Yes"; "No"].
Proof. eexists _, _. repeat split. Qed.

Lemma logBlockActions_run actions (w : World) :
  logBlockActions actions w = (tt, w, flat_map blockActionLines actions).
Proof.
  induction actions as [| action rest IH]; [ reflexivity | ].
  cbn [logBlockActions flat_map]. unfold_calls. rewrite IH. reflexivity.
Qed.

Lemma forallb_isLog_lines actions :
  forallb isLog (flat_map blockActionLines actions) = true.
Proof. induction actions as [| a rest IH]; [ reflexivity | exact IH ]. Qed.

Lemma posts_lines actions : posts (flat_map blockActionLines actions) = [].
Proof. induction actions as [| a rest IH]; [ reflexivity | exact IH ]. Qed.

Lemma acks_lines actions : acks (flat_map blockActionLines actions) = [].
Proof. induction actions as [| a rest IH]; [ reflexivity | exact IH ]. Qed.

(** *** The claims on the slash commands *)

(** C1.  For a slash command [/hello] with argument text T from user U,
    the handler makes exactly one [PostMessage] call, with one attachment
    whose text is "Hello U! You said: T", and the payload it returns to
    the router is nil. *)
Theorem hello_command_posts_echo command w :
  slack.Command command = "/hello" ->
  let out := handleSlashCommand command client w in
  (exists a,
     posts (calls_of out)
     = [(slack.ChannelID command, [slack.MsgOptionAttachments [a]])]
     /\ slack.Text a
        = "Hello " ++ slack.UserName command ++ "! You said: "
          ++ slack.CommandText command)
  /\ fst (result_of out) = None.
Proof.
  intros Hc. unfold handleSlashCommand. rewrite Hc. cbn [String.eqb Ascii.eqb Bool.eqb].
  cbv beta iota delta [bind ret]. rewrite handleHelloCommand_run.
  destruct (time.Now w) as [now w1]. cbv zeta.
  destruct (slack.PostMessage client _ _ w1) as [r w2].
  cbn. split; [ | reflexivity ].
  eexists. split; reflexivity.
Qed.

(** C2.  A slash command that is neither [/hello] nor
    [/was-this-article-useful] gets a nil payload and a nil error; no call
    is made, and the world is left as it was. *)
Theorem unknown_command_is_ignored command w :
  slack.Command command <> "/hello" ->
  slack.Command command <> "/was-this-article-useful" ->
  handleSlashCommand command client w = ((None, None), w, []).
Proof.
  intros H1 H2. unfold handleSlashCommand.
  apply String.eqb_neq in H1, H2. rewrite H1, H2. reflexivity.
Qed.

(** C7.  For [/was-this-article-useful] the handler makes no call; it
    returns, with a nil error, an attachment whose one checkbox group has
    exactly the two options labelled "Yes" and "No", and the router hands
    that attachment to [Ack]. *)
Theorem article_command_returns_choice command w :
  slack.Command command = "/was-this-article-useful" ->
  exists a cb,
    handleSlashCommand command client w = ((Some a, None), w, [])
    /\ checkboxGroups a = [cb]
    /\ List.map optionLabel (slack.Options cb) = ["Yes"; "No"]
    /\ forall event req,
         socketmode.Type_ event = socketmode.EventTypeSlashCommand ->
         socketmode.Data event = socketmode.SlashCommandData command ->
         socketmode.Request_ event = Some req ->
         onEvent client socketClient event w
         = (Next, socketmode.Ack socketClient req [Some a] w,
            [CallAck req [Some a]]).
Proof.
  intros Hc.
  assert (Hs : handleSlashCommand command client w
               = handleIsArticleGood command client w).
  { unfold handleSlashCommand. rewrite Hc. reflexivity. }
  destruct (handleIsArticleGood_run command w) as [a [cb [Hr [Hcb Hl]]]].
  exists a, cb. rewrite Hs. repeat split; try assumption.
  intros event req Ht Hd Hq.
  unfold onEvent, dispatch. rewrite Ht, Hd, Hq.
  cbn [String.eqb Ascii.eqb Bool.eqb socketmode.EventTypeSlashCommand
       socketmode.EventTypeEventsAPI].
  unfold bind at 1. rewrite Hs, Hr. reflexivity.
Qed.

(** *** The claims on mentions *)

(** C5.  For a mention whose text contains "hello" in any letter case, the
    reply (one [PostMessage] call with one attachment, made once the
    look-up succeeded) has the pretext "Greetings" and the colour
    "#4af030"; and the handler does the same on the lowered text. *)
Theorem mention_hello_greets event w :
  containsAnyCase (slackevents.Text event) "hello" = true ->
  let out := handleAppMentionEvent event client w in
  match slack.GetUserInfo client (slackevents.User event) w with
  | (Ok user, _) =>
    exists a,
      posts (calls_of out)
      = [(slackevents.Channel event, [slack.MsgOptionAttachments [a]])]
      /\ slack.Pretext a = "Greetings" /\ slack.Color a = "#4af030"
  | (Err _, _) => posts (calls_of out) = []
  end
  /\ handleAppMentionEvent
       (withText (strings.ToLower lowerCase (slackevents.Text event)) event)
       client w
     = out.
Proof.
  intros Hh. cbv zeta.
  pose proof (ToLower_contains_complete "hello" _ eq_refl Hh) as Hc.
  assert (Hc' : strings.Contains
                  (strings.ToLower lowerCase
                     (strings.ToLower lowerCase (slackevents.Text event)))
                  "hello" = true).
  { apply (ToLower_contains_complete "hello" _ eq_refl).
    apply occurs_containsAnyCase. now rewrite <- Contains_occurs. }
  rewrite !handleAppMentionEvent_run.
  cbn [withText slackevents.User slackevents.Text slackevents.Channel].
  rewrite Hc, Hc'.
  destruct (slack.GetUserInfo client _ w) as [[user | err] w1].
  - destruct (time.Now w1) as [now w2]. cbv zeta.
    destruct (slack.PostMessage client _ _ w2) as [r w3].
    split; [ | reflexivity ].
    eexists. cbn. repeat split.
  - split; reflexivity.
Qed.

(** C6.  For a mention whose text does not contain "hello" in any letter
    case, the reply has the pretext "How can I be of service?", the text
    "How can I help you " followed by the user's name, and the colour
    "#3d3d3d".  The proviso [lowersOutside] is on Unicode's table alone,
    and only on the runes above ASCII up to U+10FFFF, the ones the decoder
    can yield: none of them has h, e, l or o as its small letter. *)
Theorem mention_other_offers_service event w :
  lowersOutside "hello" ->
  containsAnyCase (slackevents.Text event) "hello" = false ->
  let out := handleAppMentionEvent event client w in
  match slack.GetUserInfo client (slackevents.User event) w with
  | (Ok user, _) =>
    exists a,
      posts (calls_of out)
      = [(slackevents.Channel event, [slack.MsgOptionAttachments [a]])]
      /\ slack.Pretext a = "How can I be of service?"
      /\ slack.Text a = "How can I help you " ++ slack.Name user
      /\ slack.Color a = "#3d3d3d"
  | (Err _, _) => posts (calls_of out) = []
  end.
Proof.
  intros Hout Hh. cbv zeta.
  assert (Hc : strings.Contains
                 (strings.ToLower lowerCase (slackevents.Text event))
                 "hello" = false).
  { destruct (strings.Contains _ "hello") eqn:E; [ | reflexivity ].
    apply (ToLower_contains_sound "hello" _ eq_refl Hout) in E.
    rewrite E in Hh. discriminate Hh. }
  rewrite handleAppMentionEvent_run. rewrite Hc.
  destruct (slack.GetUserInfo client _ w) as [[user | err] w1].
  - destruct (time.Now w1) as [now w2]. cbv zeta.
    destruct (slack.PostMessage client _ _ w2) as [r w3].
    eexists. cbn. repeat split.
  - reflexivity.
Qed.

(** C8.  When the user look-up fails, [handleAppMentionEvent] returns
    that very error and the look-up is the only call it made; when it
    succeeds, the one attachment posted starts with a "Date" field and an
    "Initializer" field that holds the user's name. *)
Theorem mention_lookup_failure_posts_nothing event w :
  let out := handleAppMentionEvent event client w in
  match slack.GetUserInfo client (slackevents.User event) w with
  | (Err err, w1) =>
    out = (Some err, w1, [CallGetUserInfo (slackevents.User event)])
    /\ posts (calls_of out) = []
  | (Ok user, w1) =>
    exists a,
      posts (calls_of out)
      = [(slackevents.Channel event, [slack.MsgOptionAttachments [a]])]
      /\ slack.Fields a
         = [ {| slack.Title := "Date";
                slack.Value :=
                  time.Format (fst (time.Now w1)) "2006-01-02 15:04:05";
                slack.Short := false |};
             {| slack.Title := "Initializer";
                slack.Value := slack.Name user;
                slack.Short := false |} ]
  end.
Proof.
  cbv zeta. rewrite handleAppMentionEvent_run.
  destruct (slack.GetUserInfo client _ w) as [[user | err] w1].
  - destruct (time.Now w1) as [now w2]. cbv zeta.
    destruct (slack.PostMessage client _ _ w2) as [r w3].
    eexists. split; [ reflexivity | ].
    destruct (strings.Contains _ "hello"); reflexivity.
  - split; reflexivity.
Qed.

(** C10.  For an Events-API callback event whose inner event is not an
    app mention, [handleEventMessage] returns nil, makes no call and
    leaves the world as it was. *)
Theorem other_inner_event_is_ignored event innerType w :
  slackevents.Type_ event = slackevents.CallbackEvent ->
  slackevents.Data (slackevents.InnerEvent event)
  = slackevents.OtherInner innerType ->
  handleEventMessage event client w = (None, w, []).
Proof.
  intros Ht Hd. unfold handleEventMessage. rewrite Ht, Hd. reflexivity.
Qed.

(** *** The claim on interactive callbacks *)

(** C9.  [handleInteractiveEvent] returns nil and leaves the world as it
    was; its calls are log lines only: the action id, the interaction
    type and, for block actions, each action with its selected options.
    It posts nothing and acknowledges nothing. *)
Theorem interactive_event_only_logs interaction w :
  let out := handleInteractiveEvent interaction client w in
  result_of out = None
  /\ world_of out = w
  /\ calls_of out
     = ([ LogPrintf ("The action called is: %s" ++ LF)
            [ArgString (slack.ActionID interaction)];
          LogPrintf ("The response was of type: %s" ++ LF)
            [ArgString (slack.InteractionType interaction)] ]
        ++ (if (slack.InteractionType interaction
                =? slack.InteractionTypeBlockActions)%string
            then flat_map blockActionLines
                   (slack.BlockActions (slack.ActionCallback interaction))
            else []))%list
  /\ forallb isLog (calls_of out) = true
  /\ posts (calls_of out) = []
  /\ acks (calls_of out) = [].
Proof.
  cbv zeta. unfold handleInteractiveEvent.
  destruct (slack.InteractionType interaction
            =? slack.InteractionTypeBlockActions)%string.
  - unfold_calls. rewrite logBlockActions_run. cbn [app].
    rewrite app_nil_r.
    repeat split; cbn [forallb isLog posts acks andb].
    + apply forallb_isLog_lines.
    + apply posts_lines.
    + apply acks_lines.
  - repeat split.
Qed.


(** *** The claims on the listener *)

Lemma listenWith_next (body : socketmode.Event -> M World Outcome)
    event rest w w1 t1 :
  body event w = (Next, w1, t1) ->
  listenWith body (Received event :: rest) w
  = let '(o, w2, t2) := listenWith body rest w1 in (o, w2, (t1 ++ t2)%list).
Proof.
  intros H. cbn [listenWith]. unfold bind. rewrite H. reflexivity.
Qed.

Lemma listenWith_exited (body : socketmode.Event -> M World Outcome)
    event rest w code w1 t1 :
  body event w = (Exited code, w1, t1) ->
  listenWith body (Received event :: rest) w = body event w.
Proof.
  intros H. cbn [listenWith]. unfold bind. rewrite H.
  cbv beta iota delta [ret]. now rewrite app_nil_r.
Qed.

Lemma fatalWith_intro (body : socketmode.Event -> M World Outcome)
    event w w1 before e :
  body event w = (Exited 1, w1, (before ++ [LogFatal e])%list) ->
  fatalWith body event w e.
Proof.
  intros H. unfold fatalWith. split; [ | split ].
  - now rewrite H.
  - exists before. now rewrite H.
  - intros rest. exact (listenWith_exited body event rest w 1 w1 _ H).
Qed.

(** C4.  Whichever of the three handlers the router invokes, when it
    returns a non-nil error [e] the round ends in [log.Fatal(e)]: the
    process exits and the receive loop does not go on.  [onEvent] is
    [dispatch] at the three handlers of the package. *)
Theorem handler_error_terminates
    (onEventsAPI : slackevents.EventsAPIEvent -> slack.Client World ->
                   M World (option error))
    (onSlashCommand : slack.SlashCommand -> slack.Client World ->
                      M World (payload * option error))
    (onInteractive : slack.InteractionCallback -> slack.Client World ->
                     M World (option error))
    event w e :
  let body :=
    dispatch onEventsAPI onSlashCommand onInteractive client socketClient in
  (forall ev req,
     socketmode.Type_ event = socketmode.EventTypeEventsAPI ->
     socketmode.Data event = socketmode.EventsAPIEventData ev ->
     socketmode.Request_ event = Some req ->
     result_of (onEventsAPI ev client (socketmode.Ack socketClient req [] w))
     = Some e ->
     fatalWith body event w e)
  /\ (forall command,
        socketmode.Type_ event = socketmode.EventTypeSlashCommand ->
        socketmode.Data event = socketmode.SlashCommandData command ->
        snd (result_of (onSlashCommand command client w)) = Some e ->
        fatalWith body event w e)
  /\ (forall interaction,
        socketmode.Type_ event = socketmode.EventTypeInteractive ->
        socketmode.Data event
        = socketmode.InteractionCallbackData interaction ->
        result_of (onInteractive interaction client w) = Some e ->
        fatalWith body event w e).
Proof.
  cbv zeta. split; [ | split ].
  - intros ev req Ht Hd Hq He.
    destruct (onEventsAPI ev client (socketmode.Ack socketClient req [] w))
      as [[r w1] t1] eqn:E.
    cbn in He. subst r.
    apply (fatalWith_intro _ event w w1 (CallAck req [] :: t1) e).
    unfold dispatch. rewrite Ht, Hd, Hq.
    cbn [String.eqb Ascii.eqb Bool.eqb socketmode.EventTypeEventsAPI].
    unfold_calls. rewrite E. reflexivity.
  - intros command Ht Hd He.
    destruct (onSlashCommand command client w) as [[[p r] w1] t1] eqn:E.
    cbn in He. subst r.
    apply (fatalWith_intro _ event w w1 t1 e).
    unfold dispatch. rewrite Ht, Hd.
    cbn [String.eqb Ascii.eqb Bool.eqb socketmode.EventTypeEventsAPI
         socketmode.EventTypeSlashCommand].
    unfold_calls. rewrite E. reflexivity.
  - intros interaction Ht Hd He.
    destruct (onInteractive interaction client w) as [[r w1] t1] eqn:E.
    cbn in He. subst r.
    apply (fatalWith_intro _ event w w1 t1 e).
    unfold dispatch. rewrite Ht, Hd.
    cbn [String.eqb Ascii.eqb Bool.eqb socketmode.EventTypeEventsAPI
         socketmode.EventTypeSlashCommand socketmode.EventTypeInteractive].
    unfold_calls. rewrite E. reflexivity.
Qed.

(** C3, as the code has it.  An event whose data fails the type cast is
    logged in one line and the loop goes on to the next event; an event of
    a kind the listener does not route is passed over without a log line;
    but an Events-API event whose outer type is not a callback event is
    acknowledged, [handleEventMessage] returns the error "unsupported
    event type" for it, and the round ends in [log.Fatal]. *)
Theorem cast_failure_skipped_unsupported_fatal event w :
  (castFails event = true ->
   exists line,
     isLog line = true
     /\ onEvent client socketClient event w = (Next, w, [line])
     /\ forall rest,
          listen client socketClient (Received event :: rest) w
          = let '(o, w', t) := listen client socketClient rest w in
            (o, w', line :: t))
  /\ (routed (socketmode.Type_ event) = false ->
      onEvent client socketClient event w = (Next, w, [])
      /\ forall rest,
           listen client socketClient (Received event :: rest) w
           = listen client socketClient rest w)
  /\ (forall ev req,
        socketmode.Type_ event = socketmode.EventTypeEventsAPI ->
        socketmode.Data event = socketmode.EventsAPIEventData ev ->
        socketmode.Request_ event = Some req ->
        slackevents.Type_ ev <> slackevents.CallbackEvent ->
        onEvent client socketClient event w
        = (Exited 1, socketmode.Ack socketClient req [] w,
           [CallAck req []; LogFatal (errors.New "unsupported event type")])
        /\ fatalWith (onEvent client socketClient) event w
             (errors.New "unsupported event type")).
Proof.
  split; [ | split ].
  - intros Hc.
    assert (Hline : exists line,
              isLog line = true
              /\ onEvent client socketClient event w = (Next, w, [line])).
    { unfold castFails in Hc. unfold onEvent, dispatch.
      destruct (socketmode.Type_ event =? socketmode.EventTypeEventsAPI)%string.
      { destruct (socketmode.Data event); try discriminate Hc;
          eexists; (split; [ | reflexivity ]); reflexivity. }
      destruct (socketmode.Type_ event
                =? socketmode.EventTypeSlashCommand)%string.
      { destruct (socketmode.Data event); try discriminate Hc;
          eexists; (split; [ | reflexivity ]); reflexivity. }
      destruct (socketmode.Type_ event
                =? socketmode.EventTypeInteractive)%string.
      { destruct (socketmode.Data event); try discriminate Hc;
          eexists; (split; [ | reflexivity ]); reflexivity. }
      discriminate Hc. }
    destruct Hline as [line [Hl Hr]]. exists line.
    split; [ exact Hl | split; [ exact Hr | ] ].
    intros rest. unfold listen.
    rewrite (listenWith_next _ event rest w w [line] Hr). reflexivity.
  - intros Hr. unfold routed in Hr.
    apply orb_false_iff in Hr as [Hr H3]. apply orb_false_iff in Hr as [H1 H2].
    assert (Hn : onEvent client socketClient event w = (Next, w, [])).
    { unfold onEvent, dispatch. rewrite H1, H2, H3. reflexivity. }
    split; [ exact Hn | ].
    intros rest. unfold listen.
    rewrite (listenWith_next _ event rest w w [] Hn).
    destruct (listenWith _ rest w) as [[o w'] t]. reflexivity.
  - intros ev req Ht Hd Hq Hne.
    assert (Hx : onEvent client socketClient event w
                 = (Exited 1, socketmode.Ack socketClient req [] w,
                    [CallAck req [];
                     LogFatal (errors.New "unsupported event type")])).
    { unfold onEvent, dispatch. rewrite Ht, Hd, Hq.
      cbn [String.eqb Ascii.eqb Bool.eqb socketmode.EventTypeEventsAPI].
      unfold handleEventMessage. apply String.eqb_neq in Hne. rewrite Hne.
      reflexivity. }
    split; [ exact Hx | ].
    exact (fatalWith_intro _ event w _ [CallAck req []] _ Hx).
Qed.

End Facts.

(** ** The theorems at work in the small world *)

Example ToLower_ascii :
  strings.ToLower lowerCase "Say HeLLo!" = "say hello!".
Proof. reflexivity. Qed.

(** "ÉCOUTE, HELLO" becomes "écoute, hello". *)
Example ToLower_two_bytes :
  strings.ToLower lowerCase
    (String (byte_of_Z 0xC3) (String (byte_of_Z 0x89) "COUTE, HELLO"))
  = String (byte_of_Z 0xC3) (String (byte_of_Z 0xA9) "coute, hello").
Proof. vm_compute. reflexivity. Qed.

Example Contains_hello : strings.Contains "oh hello there" "hello" = true.
Proof. reflexivity. Qed.

Example Contains_no_hello : strings.Contains "hell o" "hello" = false.
Proof. reflexivity. Qed.

Lemma demo_lowersOutside : lowersOutside "hello".
Proof.
  intros r Hr. unfold unicode.MaxASCII, utf8.MaxRune in Hr.
  change (bytes "hello") with [104; 101; 108; 108; 111].
  cbn [lowerCase Demo.caseTables]. unfold utf8.MaxRune, utf8.RuneError.
  repeat match goal with
         | |- context [ ?a =? ?b ] => destruct (Z.eqb_spec a b)
         | |- context [ ?a <=? ?b ] => destruct (Z.leb_spec a b)
         end;
    cbn [andb negb In]; (split; [ lia | intros Hin; lia ]).
Qed.

(** C1 at [/hello good morning] in channel C1. *)
Lemma hello_command_posts_echo_witness :
  slack.Command (Demo.slash "/hello" "good morning" "C1") = "/hello"
  /\ ((exists a,
         posts (calls_of (handleSlashCommand
                            (Demo.slash "/hello" "good morning" "C1")
                            Demo.client Demo.world))
         = [("C1", [slack.MsgOptionAttachments [a]])]
         /\ slack.Text a = "Hello pavlo! You said: good morning")
      /\ fst (result_of (handleSlashCommand
                           (Demo.slash "/hello" "good morning" "C1")
                           Demo.client Demo.world))
         = None).
Proof.
  split; [ reflexivity | ].
  exact (hello_command_posts_echo Demo.client
           (Demo.slash "/hello" "good morning" "C1") Demo.world eq_refl).
Defined.

(** C2 at [/weather kyiv]. *)
Lemma unknown_command_is_ignored_witness :
  slack.Command (Demo.slash "/weather" "kyiv" "C1") <> "/hello"
  /\ slack.Command (Demo.slash "/weather" "kyiv" "C1")
     <> "/was-this-article-useful"
  /\ handleSlashCommand (Demo.slash "/weather" "kyiv" "C1")
       Demo.client Demo.world
     = ((None, None), Demo.world, []).
Proof.
  assert (H1 : slack.Command (Demo.slash "/weather" "kyiv" "C1") <> "/hello")
    by (simpl; discriminate).
  assert (H2 : slack.Command (Demo.slash "/weather" "kyiv" "C1")
               <> "/was-this-article-useful")
    by (simpl; discriminate).
  split; [ exact H1 | split; [ exact H2 | ] ].
  exact (unknown_command_is_ignored Demo.client
           (Demo.slash "/weather" "kyiv" "C1") Demo.world H1 H2).
Defined.

(** The claim C3 fails on an Events-API event of type
    [url_verification]: the process exits; and on an event of kind
    [hello], which the listener does not route: nothing is logged. *)
Lemma unsupported_event_type_exits :
  result_of (onEvent Demo.client Demo.socketClient
               (Demo.event socketmode.EventTypeEventsAPI
                  (socketmode.EventsAPIEventData Demo.urlVerification))
               Demo.world)
  = Exited 1
  /\ calls_of (onEvent Demo.client Demo.socketClient
                 (Demo.event socketmode.EventTypeEventsAPI
                    (socketmode.EventsAPIEventData Demo.urlVerification))
                 Demo.world)
     = [CallAck Demo.request [];
        LogFatal (errorString "unsupported event type")]
  /\ listen Demo.client Demo.socketClient
       [Received (Demo.event socketmode.EventTypeEventsAPI
                    (socketmode.EventsAPIEventData Demo.urlVerification));
        Received (Demo.event socketmode.EventTypeSlashCommand
                    (socketmode.SlashCommandData
                       (Demo.slash "/hello" "again" "C1")))]
       Demo.world
     = (Exited 1, Demo.world,
        [CallAck Demo.request [];
         LogFatal (errorString "unsupported event type")])
  /\ calls_of (onEvent Demo.client Demo.socketClient
                 (Demo.event socketmode.EventTypeHello
                    (socketmode.OtherData "nil"))
                 Demo.world)
     = [].
Proof. repeat split. Qed.

(** C3 as amended, at a slash-command event that carries a string, at an
    event of kind [hello], and at an Events-API event of type
    [url_verification]. *)
Lemma cast_failure_skipped_unsupported_fatal_witness :
  (castFails (Demo.event socketmode.EventTypeSlashCommand
                (socketmode.OtherData "string")) = true
   /\ exists line,
        isLog line = true
        /\ onEvent Demo.client Demo.socketClient
             (Demo.event socketmode.EventTypeSlashCommand
                (socketmode.OtherData "string")) Demo.world
           = (Next, Demo.world, [line]))
  /\ (routed socketmode.EventTypeHello = false
      /\ onEvent Demo.client Demo.socketClient
           (Demo.event socketmode.EventTypeHello (socketmode.OtherData "nil"))
           Demo.world
         = (Next, Demo.world, []))
  /\ (slackevents.Type_ Demo.urlVerification <> slackevents.CallbackEvent
      /\ fatalWith (onEvent Demo.client Demo.socketClient)
           (Demo.event socketmode.EventTypeEventsAPI
              (socketmode.EventsAPIEventData Demo.urlVerification))
           Demo.world (errors.New "unsupported event type")).
Proof.
  split; [ | split ].
  - split; [ reflexivity | ].
    destruct (cast_failure_skipped_unsupported_fatal Demo.client
                Demo.socketClient
                (Demo.event socketmode.EventTypeSlashCommand
                   (socketmode.OtherData "string")) Demo.world)
      as [H _].
    destruct (H eq_refl) as [line [Hl [Hr _]]].
    exists line. split; assumption.
  - split; [ reflexivity | ].
    destruct (cast_failure_skipped_unsupported_fatal Demo.client
                Demo.socketClient
                (Demo.event socketmode.EventTypeHello
                   (socketmode.OtherData "nil")) Demo.world)
      as [_ [H _]].
    exact (proj1 (H eq_refl)).
  - assert (Hne : slackevents.Type_ Demo.urlVerification
                  <> slackevents.CallbackEvent) by (simpl; discriminate).
    split; [ exact Hne | ].
    destruct (cast_failure_skipped_unsupported_fatal Demo.client
                Demo.socketClient
                (Demo.event socketmode.EventTypeEventsAPI
                   (socketmode.EventsAPIEventData Demo.urlVerification))
                Demo.world)
      as [_ [_ H]].
    exact (proj2 (H Demo.urlVerification Demo.request eq_refl eq_refl eq_refl
                    Hne)).
Defined.

(** C4 at a mention by a user Slack does not know (the look-up fails) and
    at [/hello] in a channel the bot cannot post to (the send fails). *)
Lemma handler_error_terminates_witness :
  fatalWith (onEvent Demo.client Demo.socketClient)
    (Demo.event socketmode.EventTypeEventsAPI
       (socketmode.EventsAPIEventData
          (Demo.callback
             (slackevents.AppMention (Demo.mention "U9" "hello" "C1")))))
    Demo.world (errorString "user_not_found")
  /\ fatalWith (onEvent Demo.client Demo.socketClient)
       (Demo.event socketmode.EventTypeSlashCommand
          (socketmode.SlashCommandData (Demo.slash "/hello" "hi" "C9")))
       Demo.world
       (fmt.Errorf "failed to post message: %w"
          (errorString "channel_not_found")).
Proof.
  split.
  - exact (proj1 (handler_error_terminates Demo.client Demo.socketClient
                    handleEventMessage handleSlashCommand
                    handleInteractiveEvent
                    (Demo.event socketmode.EventTypeEventsAPI
                       (socketmode.EventsAPIEventData
                          (Demo.callback
                             (slackevents.AppMention
                                (Demo.mention "U9" "hello" "C1")))))
                    Demo.world (errorString "user_not_found"))
             (Demo.callback
                (slackevents.AppMention (Demo.mention "U9" "hello" "C1")))
             Demo.request eq_refl eq_refl eq_refl eq_refl).
  - exact (proj1 (proj2 (handler_error_terminates Demo.client
                           Demo.socketClient
                           handleEventMessage handleSlashCommand
                           handleInteractiveEvent
                           (Demo.event socketmode.EventTypeSlashCommand
                              (socketmode.SlashCommandData
                                 (Demo.slash "/hello" "hi" "C9")))
                           Demo.world
                           (fmt.Errorf "failed to post message: %w"
                              (errorString "channel_not_found"))))
             (Demo.slash "/hello" "hi" "C9") eq_refl eq_refl eq_refl).
Defined.

(** C5 at the mention "Oh, HeLLo bot". *)
Lemma mention_hello_greets_witness :
  containsAnyCase "Oh, HeLLo bot" "hello" = true
  /\ (exists a,
        posts (calls_of (handleAppMentionEvent
                           (Demo.mention "U1" "Oh, HeLLo bot" "C1")
                           Demo.client Demo.world))
        = [("C1", [slack.MsgOptionAttachments [a]])]
        /\ slack.Pretext a = "Greetings" /\ slack.Color a = "#4af030").
Proof.
  split; [ reflexivity | ].
  exact (proj1 (mention_hello_greets Demo.client
                  (Demo.mention "U1" "Oh, HeLLo bot" "C1") Demo.world
                  eq_refl)).
Defined.

(** C6 at the mention "what's up?". *)
Lemma mention_other_offers_service_witness :
  containsAnyCase "what's up?" "hello" = false
  /\ (exists a,
        posts (calls_of (handleAppMentionEvent
                           (Demo.mention "U1" "what's up?" "C1")
                           Demo.client Demo.world))
        = [("C1", [slack.MsgOptionAttachments [a]])]
        /\ slack.Pretext a = "How can I be of service?"
        /\ slack.Text a = "How can I help you pavlo"
        /\ slack.Color a = "#3d3d3d").
Proof.
  split; [ reflexivity | ].
  exact (mention_other_offers_service Demo.client
           (Demo.mention "U1" "what's up?" "C1") Demo.world
           demo_lowersOutside eq_refl).
Defined.

(** C7 at [/was-this-article-useful]. *)
Lemma article_command_returns_choice_witness :
  slack.Command (Demo.slash "/was-this-article-useful" "" "C1")
  = "/was-this-article-useful"
  /\ exists a cb,
       handleSlashCommand (Demo.slash "/was-this-article-useful" "" "C1")
         Demo.client Demo.world
       = ((Some a, None), Demo.world, [])
       /\ checkboxGroups a = [cb]
       /\ List.map optionLabel (slack.Options cb) = ["Yes"; "No"]
       /\ onEvent Demo.client Demo.socketClient
            (Demo.event socketmode.EventTypeSlashCommand
               (socketmode.SlashCommandData
                  (Demo.slash "/was-this-article-useful" "" "C1")))
            Demo.world
          = (Next, Demo.world, [CallAck Demo.request [Some a]]).
Proof.
  split; [ reflexivity | ].
  destruct (article_command_returns_choice Demo.client Demo.socketClient
              (Demo.slash "/was-this-article-useful" "" "C1") Demo.world
              eq_refl)
    as [a [cb [Hr [Hcb [Hl Hack]]]]].
  exists a, cb. repeat split; try assumption.
  exact (Hack (Demo.event socketmode.EventTypeSlashCommand
                 (socketmode.SlashCommandData
                    (Demo.slash "/was-this-article-useful" "" "C1")))
           Demo.request eq_refl eq_refl eq_refl).
Defined.

(** C10 at a callback event that carries a message event. *)
Lemma other_inner_event_is_ignored_witness :
  slackevents.Type_ (Demo.callback (slackevents.OtherInner "message"))
  = slackevents.CallbackEvent
  /\ handleEventMessage (Demo.callback (slackevents.OtherInner "message"))
       Demo.client Demo.world
     = (None, Demo.world, []).
Proof.
  split; [ reflexivity | ].
  exact (other_inner_event_is_ignored Demo.client
           (Demo.callback (slackevents.OtherInner "message")) "message"
           Demo.world eq_refl eq_refl).
Defined.

(** C8 and C9 in the small world. *)
Example mention_by_unknown_user :
  handleAppMentionEvent (Demo.mention "U9" "hello" "C1") Demo.client Demo.world
  = (Some (errorString "user_not_found"), Demo.world, [CallGetUserInfo "U9"]).
Proof. reflexivity. Qed.

Example mention_by_known_user :
  handleAppMentionEvent (Demo.mention "U1" "hello" "C1") Demo.client Demo.world
  = (None,
     {| Demo.clock := "2024-02-03 04:05:06";
        Demo.directory := Demo.directory Demo.world;
        Demo.channels := ["C1"]; Demo.sent := 1 |},
     [CallGetUserInfo "U1";
      CallPostMessage "C1"
        [slack.MsgOptionAttachments
           [greetingAttachment "2024-02-03 04:05:06" "pavlo"]]]).
Proof. vm_compute. reflexivity. Qed.

Example interactive_answer_is_logged :
  handleInteractiveEvent Demo.answer Demo.client Demo.world
  = (None, Demo.world,
     [ LogPrintf ("The action called is: %s" ++ LF) [ArgString "answer"];
       LogPrintf ("The response was of type: %s" ++ LF)
         [ArgString "block_actions"] ]
     ++ flat_map blockActionLines
          (slack.BlockActions (slack.ActionCallback Demo.answer)))%list.
Proof. reflexivity. Qed.

(** * More of the program *)

(** ** Counting calls *)

Lemma posts_app t1 t2 : posts (t1 ++ t2) = (posts t1 ++ posts t2)%list.
Proof.
  induction t1 as [| c t1 IH]; [ reflexivity | ].
  destruct c; cbn [app posts]; now rewrite IH.
Qed.

Lemma acks_app t1 t2 : acks (t1 ++ t2) = (acks t1 ++ acks t2)%list.
Proof.
  induction t1 as [| c t1 IH]; [ reflexivity | ].
  destruct c; cbn [app acks]; now rewrite IH.
Qed.

Lemma fatals_app t1 t2 : fatals (t1 ++ t2) = (fatals t1 ++ fatals t2)%list.
Proof. apply filter_app. Qed.

Lemma fatals_lines actions : fatals (flat_map blockActionLines actions) = [].
Proof. induction actions as [| a rest IH]; [ reflexivity | exact IH ]. Qed.

Section MoreFacts.

Context {World : Type} {clock : time.Clock World} {tables : CaseTables}.
Variable client : slack.Client World.
Variable socketClient : socketmode.Client World.

(** ** The handlers, run *)

Lemma handleEventMessage_run event w :
  handleEventMessage event client w
  = if (slackevents.Type_ event =? slackevents.CallbackEvent)%string then
      match slackevents.Data (slackevents.InnerEvent event) with
      | slackevents.AppMention ev => handleAppMentionEvent ev client w
      | slackevents.OtherInner _ => (None, w, [])
      end
    else (Some (errors.New "unsupported event type"), w, []).
Proof.
  unfold handleEventMessage.
  destruct (slackevents.Type_ event =? slackevents.CallbackEvent)%string;
    [ | reflexivity ].
  destruct (slackevents.Data (slackevents.InnerEvent event)) as [ev | t];
    [ | reflexivity ].
  unfold bind. destruct (handleAppMentionEvent ev client w) as [[r w1] t1].
  destruct r; cbv beta iota delta [ret]; now rewrite app_nil_r.
Qed.

Lemma handleSlashCommand_run command w :
  handleSlashCommand command client w
  = if (slack.Command command =? "/hello")%string then
      let '(err, w1, t) := handleHelloCommand command client w in
      ((None, err), w1, t)
    else if (slack.Command command
             =? "/was-this-article-useful")%string then
      handleIsArticleGood command client w
    else ((None, None), w, []).
Proof.
  unfold handleSlashCommand.
  destruct (slack.Command command =? "/hello")%string.
  - unfold bind.
    destruct (handleHelloCommand command client w) as [[r w1] t1].
    cbv beta iota delta [ret]. now rewrite app_nil_r.
  - destruct (slack.Command command =? "/was-this-article-useful")%string;
      reflexivity.
Qed.

Lemma handleInteractiveEvent_run interaction w :
  handleInteractiveEvent interaction client w
  = (None, w,
     [ LogPrintf ("The action called is: %s" ++ LF)
         [ArgString (slack.ActionID interaction)];
       LogPrintf ("The response was of type: %s" ++ LF)
         [ArgString (slack.InteractionType interaction)] ]
     ++ (if (slack.InteractionType interaction
             =? slack.InteractionTypeBlockActions)%string
         then flat_map blockActionLines
                (slack.BlockActions (slack.ActionCallback interaction))
         else []))%list.
Proof.
  unfold handleInteractiveEvent.
  destruct (slack.InteractionType interaction
            =? slack.InteractionTypeBlockActions)%string.
  - unfold_calls. rewrite logBlockActions_run. cbn [app].
    now rewrite app_nil_r.
  - reflexivity.
Qed.

Lemma handleAppMentionEvent_modest ev w :
  modest (calls_of (handleAppMentionEvent ev client w)).
Proof.
  rewrite (handleAppMentionEvent_run client).
  destruct (slack.GetUserInfo client _ w) as [[user | err] w1].
  - destruct (time.Now w1) as [now w2]. cbv zeta.
    destruct (slack.PostMessage client _ _ w2) as [r w3].
    repeat split. cbn. lia.
  - repeat split. cbn. lia.
Qed.

Lemma handleEventMessage_modest ev w :
  modest (calls_of (handleEventMessage ev client w)).
Proof.
  rewrite handleEventMessage_run.
  destruct (slackevents.Type_ ev =? slackevents.CallbackEvent)%string.
  - destruct (slackevents.Data (slackevents.InnerEvent ev)).
    + apply handleAppMentionEvent_modest.
    + repeat split. cbn. lia.
  - repeat split. cbn. lia.
Qed.

Lemma handleSlashCommand_modest command w :
  modest (calls_of (handleSlashCommand command client w)).
Proof.
  rewrite handleSlashCommand_run.
  destruct (slack.Command command =? "/hello")%string.
  - rewrite (handleHelloCommand_run client).
    destruct (time.Now w) as [now w1]. cbv zeta.
    destruct (slack.PostMessage client _ _ w1) as [r w2].
    repeat split. cbn. lia.
  - destruct (slack.Command command =? "/was-this-article-useful")%string;
      repeat split; cbn; lia.
Qed.

Lemma handleInteractiveEvent_modest interaction w :
  modest (calls_of (handleInteractiveEvent interaction client w))
  /\ posts (calls_of (handleInteractiveEvent interaction client w)) = [].
Proof.
  rewrite handleInteractiveEvent_run. unfold calls_of, modest. cbn [snd].
  rewrite fatals_app, acks_app, posts_app.
  destruct (slack.InteractionType interaction
            =? slack.InteractionTypeBlockActions)%string.
  - rewrite fatals_lines, acks_lines, posts_lines. repeat split. cbn. lia.
  - repeat split. cbn. lia.
Qed.

(** ** One round of the listener, kind by kind *)

Lemma onEvent_eventsAPI event ev req w :
  socketmode.Type_ event = socketmode.EventTypeEventsAPI ->
  socketmode.Data event = socketmode.EventsAPIEventData ev ->
  socketmode.Request_ event = Some req ->
  onEvent client socketClient event w
  = let '(err, w1, t) :=
      handleEventMessage ev client (socketmode.Ack socketClient req [] w) in
    match err with
    | Some e => (Exited 1, w1, CallAck req [] :: t ++ [LogFatal e])
    | None => (Next, w1, CallAck req [] :: t)
    end%list.
Proof.
  intros Ht Hd Hq. unfold onEvent, dispatch. rewrite Ht, Hd, Hq.
  cbn [String.eqb Ascii.eqb Bool.eqb socketmode.EventTypeEventsAPI].
  unfold_calls.
  destruct (handleEventMessage ev client _) as [[r w1] t1].
  destruct r; cbn [app]; [ reflexivity | now rewrite app_nil_r ].
Qed.

Lemma onEvent_slashCommand event command w :
  socketmode.Type_ event = socketmode.EventTypeSlashCommand ->
  socketmode.Data event = socketmode.SlashCommandData command ->
  onEvent client socketClient event w
  = let '(p, err, w1, t) := handleSlashCommand command client w in
    match err with
    | Some e => (Exited 1, w1, t ++ [LogFatal e])
    | None =>
      match socketmode.Request_ event with
      | None => (Panicked nilDereference, w1, t)
      | Some req =>
        (Next, socketmode.Ack socketClient req [p] w1, t ++ [CallAck req [p]])
      end
    end%list.
Proof.
  intros Ht Hd. unfold onEvent, dispatch. rewrite Ht, Hd.
  cbn [String.eqb Ascii.eqb Bool.eqb socketmode.EventTypeEventsAPI
       socketmode.EventTypeSlashCommand].
  unfold_calls.
  destruct (handleSlashCommand command client w) as [[[p r] w1] t1].
  destruct r; [ reflexivity | ].
  destruct (socketmode.Request_ event); [ reflexivity | ].
  now rewrite app_nil_r.
Qed.

Lemma onEvent_interactive event interaction w :
  socketmode.Type_ event = socketmode.EventTypeInteractive ->
  socketmode.Data event = socketmode.InteractionCallbackData interaction ->
  onEvent client socketClient event w
  = let '(err, w1, t) := handleInteractiveEvent interaction client w in
    match err with
    | Some e => (Exited 1, w1, t ++ [LogFatal e])
    | None =>
      match socketmode.Request_ event with
      | None => (Panicked nilDereference, w1, t)
      | Some req =>
        (Next, socketmode.Ack socketClient req [] w1, t ++ [CallAck req []])
      end
    end%list.
Proof.
  intros Ht Hd. unfold onEvent, dispatch. rewrite Ht, Hd.
  cbn [String.eqb Ascii.eqb Bool.eqb socketmode.EventTypeEventsAPI
       socketmode.EventTypeSlashCommand socketmode.EventTypeInteractive].
  unfold_calls.
  destruct (handleInteractiveEvent interaction client w) as [[r w1] t1].
  destruct r; [ reflexivity | ].
  destruct (socketmode.Request_ event); [ reflexivity | ].
  now rewrite app_nil_r.
Qed.

(** A round without a handler: a cast failure or a kind not routed. *)
Lemma onEvent_unhandled event w :
  (castFails event || negb (routed (socketmode.Type_ event)))%bool = true ->
  exists t, onEvent client socketClient event w = (Next, w, t)
            /\ forallb isLog t = true.
Proof.
  unfold castFails, routed, onEvent, dispatch.
  destruct (socketmode.Type_ event =? socketmode.EventTypeEventsAPI)%string.
  { destruct (socketmode.Data event); cbn; intros H;
      try discriminate H; eexists; split; reflexivity. }
  destruct (socketmode.Type_ event =? socketmode.EventTypeSlashCommand)%string.
  { destruct (socketmode.Data event); cbn; intros H;
      try discriminate H; eexists; split; reflexivity. }
  destruct (socketmode.Type_ event =? socketmode.EventTypeInteractive)%string.
  { destruct (socketmode.Data event); cbn; intros H;
      try discriminate H; eexists; split; reflexivity. }
  intros _. eexists; split; reflexivity.
Qed.

(** Every event is of one of four sorts. *)
Lemma event_sorts event :
  (exists ev, socketmode.Type_ event = socketmode.EventTypeEventsAPI
              /\ socketmode.Data event = socketmode.EventsAPIEventData ev)
  \/ (exists command,
        socketmode.Type_ event = socketmode.EventTypeSlashCommand
        /\ socketmode.Data event = socketmode.SlashCommandData command)
  \/ (exists interaction,
        socketmode.Type_ event = socketmode.EventTypeInteractive
        /\ socketmode.Data event
           = socketmode.InteractionCallbackData interaction)
  \/ (castFails event || negb (routed (socketmode.Type_ event)))%bool = true.
Proof.
  unfold castFails, routed.
  destruct (String.eqb_spec (socketmode.Type_ event)
              socketmode.EventTypeEventsAPI) as [H1 | H1].
  { destruct (socketmode.Data event) as [ev | c | i | d] eqn:E;
      [ left; now exists ev | | | ]; right; right; right; reflexivity. }
  destruct (String.eqb_spec (socketmode.Type_ event)
              socketmode.EventTypeSlashCommand) as [H2 | H2].
  { destruct (socketmode.Data event) as [ev | c | i | d] eqn:E;
      [ | right; left; now exists c | | ]; right; right; right; reflexivity. }
  destruct (String.eqb_spec (socketmode.Type_ event)
              socketmode.EventTypeInteractive) as [H3 | H3].
  { destruct (socketmode.Data event) as [ev | c | i | d] eqn:E;
      [ | | right; right; left; now exists i | ];
      right; right; right; reflexivity. }
  right; right; right; reflexivity.
Qed.


Lemma onEvent_eventsAPI_no_request event ev w :
  socketmode.Type_ event = socketmode.EventTypeEventsAPI ->
  socketmode.Data event = socketmode.EventsAPIEventData ev ->
  socketmode.Request_ event = None ->
  onEvent client socketClient event w = (Panicked nilDereference, w, []).
Proof.
  intros Ht Hd Hq. unfold onEvent, dispatch. now rewrite Ht, Hd, Hq.
Qed.

Lemma fatals_logs t : forallb isLog t = true -> fatals t = [].
Proof.
  induction t as [| c t IH]; [ reflexivity | ].
  cbn [forallb]. intros H. apply andb_true_iff in H as [Hc H].
  destruct c; try discriminate Hc; cbn; now apply IH.
Qed.

Lemma posts_logs t : forallb isLog t = true -> posts t = [].
Proof.
  induction t as [| c t IH]; [ reflexivity | ].
  cbn [forallb]. intros H. apply andb_true_iff in H as [Hc H].
  destruct c; try discriminate Hc; cbn; now apply IH.
Qed.

Lemma acks_logs t : forallb isLog t = true -> acks t = [].
Proof.
  induction t as [| c t IH]; [ reflexivity | ].
  cbn [forallb]. intros H. apply andb_true_iff in H as [Hc H].
  destruct c; try discriminate Hc; cbn; now apply IH.
Qed.

(** One round: [log.Fatal] only as the last call. *)
Lemma onEvent_fatalOnlyLast event w :
  fatalOnlyLast (onEvent client socketClient event w).
Proof.
  destruct (event_sorts event)
    as [[ev [Ht Hd]] | [[c [Ht Hd]] | [[i [Ht Hd]] | Hu]]].
  - destruct (socketmode.Request_ event) as [req |] eqn:Hq.
    + rewrite (onEvent_eventsAPI event ev req w Ht Hd Hq).
      destruct (handleEventMessage_modest ev
                  (socketmode.Ack socketClient req [] w)) as [Hf _].
      destruct (handleEventMessage ev client _) as [[r w1] t1].
      cbn [calls_of snd] in Hf. destruct r as [e |]; unfold fatalOnlyLast; cbn.
      * split; [ reflexivity | ]. exists (CallAck req [] :: t1), e.
        split; [ reflexivity | exact Hf ].
      * exact Hf.
    + now rewrite (onEvent_eventsAPI_no_request event ev w Ht Hd Hq).
  - rewrite (onEvent_slashCommand event c w Ht Hd).
    destruct (handleSlashCommand_modest c w) as [Hf _].
    destruct (handleSlashCommand c client w) as [[[p r] w1] t1].
    cbn [calls_of snd] in Hf. destruct r as [e |]; unfold fatalOnlyLast.
    + cbn. split; [ reflexivity | ]. now exists t1, e.
    + destruct (socketmode.Request_ event); cbn; [ | exact Hf ].
      rewrite fatals_app, Hf. reflexivity.
  - rewrite (onEvent_interactive event i w Ht Hd).
    destruct (handleInteractiveEvent_modest i w) as [[Hf _] _].
    destruct (handleInteractiveEvent i client w) as [[r w1] t1].
    cbn [calls_of snd] in Hf. destruct r as [e |]; unfold fatalOnlyLast.
    + cbn. split; [ reflexivity | ]. now exists t1, e.
    + destruct (socketmode.Request_ event); cbn; [ | exact Hf ].
      rewrite fatals_app, Hf. reflexivity.
  - destruct (onEvent_unhandled event w Hu) as [t [-> Hl]].
    unfold fatalOnlyLast. cbn. now apply fatals_logs.
Qed.

(** One round: at most one post and at most one acknowledgment. *)
Lemma onEvent_bounds event w :
  (List.length (posts (calls_of (onEvent client socketClient event w))) <= 1
   /\ List.length (acks (calls_of (onEvent client socketClient event w))) <= 1
  )%nat.
Proof.
  destruct (event_sorts event)
    as [[ev [Ht Hd]] | [[c [Ht Hd]] | [[i [Ht Hd]] | Hu]]].
  - destruct (socketmode.Request_ event) as [req |] eqn:Hq.
    + rewrite (onEvent_eventsAPI event ev req w Ht Hd Hq).
      destruct (handleEventMessage_modest ev
                  (socketmode.Ack socketClient req [] w)) as [_ [Ha Hp]].
      destruct (handleEventMessage ev client _) as [[r w1] t1].
      cbn [calls_of snd] in *.
      destruct r as [e |]; cbn [calls_of snd posts acks];
        rewrite ?posts_app, ?acks_app, ?Ha, ?length_app; cbn; lia.
    + rewrite (onEvent_eventsAPI_no_request event ev w Ht Hd Hq). cbn. lia.
  - rewrite (onEvent_slashCommand event c w Ht Hd).
    destruct (handleSlashCommand_modest c w) as [_ [Ha Hp]].
    destruct (handleSlashCommand c client w) as [[[p r] w1] t1].
    cbn [calls_of snd] in *.
    destruct r as [e |]; [ | destruct (socketmode.Request_ event) ];
      cbn [calls_of snd];
      rewrite ?posts_app, ?acks_app, ?Ha, ?length_app; cbn; lia.
  - rewrite (onEvent_interactive event i w Ht Hd).
    destruct (handleInteractiveEvent_modest i w) as [[_ [Ha Hp]] _].
    destruct (handleInteractiveEvent i client w) as [[r w1] t1].
    cbn [calls_of snd] in *.
    destruct r as [e |]; [ | destruct (socketmode.Request_ event) ];
      cbn [calls_of snd];
      rewrite ?posts_app, ?acks_app, ?Ha, ?length_app; cbn; lia.
  - destruct (onEvent_unhandled event w Hu) as [t [-> Hl]].
    cbn [calls_of snd]. rewrite (posts_logs t Hl), (acks_logs t Hl). cbn. lia.
Qed.

(** ** The loop *)

Lemma listenWith_step (body : socketmode.Event -> M World Outcome)
    event rest w :
  listenWith body (Received event :: rest) w
  = let '(o, w1, t1) := body event w in
    match o with
    | Next =>
      let '(o2, w2, t2) := listenWith body rest w1 in
      (o2, w2, (t1 ++ t2)%list)
    | _ => (o, w1, t1)
    end.
Proof.
  cbn [listenWith]. unfold bind.
  destruct (body event w) as [[o w1] t1].
  destruct o; cbv beta iota delta [ret]; try now rewrite app_nil_r.
  reflexivity.
Qed.

Lemma listenWith_app (body : socketmode.Event -> M World Outcome)
    picks1 picks2 : forall w,
  listenWith body (picks1 ++ picks2) w
  = let '(o, w1, t1) := listenWith body picks1 w in
    match o with
    | Next =>
      let '(o2, w2, t2) := listenWith body picks2 w1 in
      (o2, w2, (t1 ++ t2)%list)
    | _ => (o, w1, t1)
    end.
Proof.
  induction picks1 as [| pick picks1 IH]; intros w.
  - cbn [app listenWith]. cbv beta iota delta [ret].
    now destruct (listenWith body picks2 w) as [[o2 w2] t2].
  - destruct pick as [| event]; [ reflexivity | ].
    cbn [app]. rewrite !listenWith_step.
    destruct (body event w) as [[o w1] t1].
    destruct o; try reflexivity.
    rewrite IH. destruct (listenWith body picks1 w1) as [[o1 w2] t2].
    destruct o1; try reflexivity.
    destruct (listenWith body picks2 w2) as [[o3 w3] t3].
    now rewrite app_assoc.
Qed.

(** X1.  The listener takes the events in the order they arrive, one at
    a time: listening to two stretches of picks in a row is listening to
    the first and, when it ends back at the [select], going on with the
    second in the world the first left; when the first ends otherwise
    (the goroutine returned, the process exited or panicked) the second is
    never looked at. *)
Theorem listen_in_arrival_order picks1 picks2 w :
  listen client socketClient (picks1 ++ picks2) w
  = let '(o, w1, t1) := listen client socketClient picks1 w in
    match o with
    | Next =>
      let '(o2, w2, t2) := listen client socketClient picks2 w1 in
      (o2, w2, (t1 ++ t2)%list)
    | _ => (o, w1, t1)
    end.
Proof. unfold listen. apply listenWith_app. Qed.

(** X2.  When the context is cancelled the listener logs "Shutting down
    socketmode listener" and returns: after events that were all handled,
    the cancellation adds that one line, and whatever is still queued
    behind it is not processed. *)
Theorem cancellation_stops_listener before rest w w1 t1 :
  listen client socketClient before w = (Next, w1, t1) ->
  listen client socketClient (before ++ CtxDone :: rest) w
  = (Returned, w1, (t1 ++ [shutdownLine])%list).
Proof.
  intros H. unfold listen in *. rewrite listenWith_app, H. reflexivity.
Qed.

(** X3.  However many events the listener sees, [log.Fatal] is called at
    most once and only as its very last call: the process exits (with
    status 1) exactly when that call was made, and no call follows it. *)
Theorem fatal_is_the_last_call picks w :
  fatalOnlyLast (listen client socketClient picks w).
Proof.
  unfold listen. revert w.
  induction picks as [| pick picks IH]; intros w; [ reflexivity | ].
  destruct pick as [| event]; [ reflexivity | ].
  rewrite listenWith_step.
  pose proof (onEvent_fatalOnlyLast event w) as He.
  destruct (onEvent client socketClient event w) as [[o w1] t1].
  destruct o; try exact He.
  specialize (IH w1).
  destruct (listenWith _ picks w1) as [[o2 w2] t2].
  unfold fatalOnlyLast in *. cbn [result_of calls_of fst snd] in *.
  destruct o2; rewrite ?fatals_app, ?He, ?IH; try reflexivity.
  destruct IH as [Hc [b [e [-> Hb]]]]. split; [ exact Hc | ].
  exists (t1 ++ b)%list, e. split; [ now rewrite app_assoc | ].
  now rewrite fatals_app, He, Hb.
Qed.

(** X4.  The listener makes at most one [PostMessage] call and sends at
    most one acknowledgment per event received. *)
Theorem at_most_one_reply_per_event picks w :
  (List.length (posts (calls_of (listen client socketClient picks w)))
   <= received picks
   /\ List.length (acks (calls_of (listen client socketClient picks w)))
      <= received picks)%nat.
Proof.
  unfold listen. revert w.
  induction picks as [| pick picks IH]; intros w; [ cbn; lia | ].
  destruct pick as [| event]; [ cbn; lia | ].
  rewrite listenWith_step. cbn [received].
  pose proof (onEvent_bounds event w) as He.
  destruct (onEvent client socketClient event w) as [[o w1] t1].
  cbn [calls_of snd] in He.
  destruct o; cbn [calls_of snd]; try lia.
  specialize (IH w1).
  destruct (listenWith _ picks w1) as [[o2 w2] t2].
  cbn [calls_of snd] in *. rewrite posts_app, acks_app, !length_app. lia.
Qed.


(** ** Acknowledgments *)

(** X5.  An Events-API event that carries its request is acknowledged
    first, before the handler does anything, with no payload, and exactly
    once: also when the handler then fails and the process exits. *)
Theorem events_api_acknowledged_first event ev req w :
  socketmode.Type_ event = socketmode.EventTypeEventsAPI ->
  socketmode.Data event = socketmode.EventsAPIEventData ev ->
  socketmode.Request_ event = Some req ->
  (exists t,
     calls_of (onEvent client socketClient event w) = CallAck req [] :: t)
  /\ acks (calls_of (onEvent client socketClient event w)) = [(req, [])].
Proof.
  intros Ht Hd Hq. rewrite (onEvent_eventsAPI event ev req w Ht Hd Hq).
  destruct (handleEventMessage_modest ev
              (socketmode.Ack socketClient req [] w)) as [_ [Ha _]].
  destruct (handleEventMessage ev client _) as [[r w1] t1].
  cbn [calls_of snd] in Ha.
  destruct r as [e |]; cbn [calls_of snd acks]; (split; [ now eexists | ]).
  - now rewrite acks_app, Ha.
  - now rewrite Ha.
Qed.

(** X6.  A slash command whose handler fails is never acknowledged: the
    process exits before the [Ack] call is reached. *)
Theorem failed_slash_command_not_acknowledged event command w e :
  socketmode.Type_ event = socketmode.EventTypeSlashCommand ->
  socketmode.Data event = socketmode.SlashCommandData command ->
  snd (result_of (handleSlashCommand command client w)) = Some e ->
  result_of (onEvent client socketClient event w) = Exited 1
  /\ acks (calls_of (onEvent client socketClient event w)) = [].
Proof.
  intros Ht Hd He. rewrite (onEvent_slashCommand event command w Ht Hd).
  destruct (handleSlashCommand_modest command w) as [_ [Ha _]].
  destruct (handleSlashCommand command client w) as [[[p r] w1] t1].
  cbn in He, Ha. subst r. cbn [result_of calls_of fst snd].
  split; [ reflexivity | ]. now rewrite acks_app, Ha.
Qed.

(** X7.  A [/hello] command whose message Slack accepts: the message is
    posted first, then the request is acknowledged with a nil payload,
    and the listener goes back to the [select]. *)
Theorem hello_posted_then_acknowledged event command req w now w1 v w2 :
  socketmode.Type_ event = socketmode.EventTypeSlashCommand ->
  socketmode.Data event = socketmode.SlashCommandData command ->
  socketmode.Request_ event = Some req ->
  slack.Command command = "/hello" ->
  time.Now w = (now, w1) ->
  slack.PostMessage client (slack.ChannelID command)
    [slack.MsgOptionAttachments
       [echoAttachment (time.Format now dateLayout)
          (slack.UserName command) (slack.CommandText command)]] w1
  = (Ok v, w2) ->
  onEvent client socketClient event w
  = (Next, socketmode.Ack socketClient req [None] w2,
     [ CallPostMessage (slack.ChannelID command)
         [slack.MsgOptionAttachments
            [echoAttachment (time.Format now dateLayout)
               (slack.UserName command) (slack.CommandText command)]];
       CallAck req [None] ]).
Proof.
  intros Ht Hd Hq Hc Hn Hp.
  rewrite (onEvent_slashCommand event command w Ht Hd).
  rewrite handleSlashCommand_run, Hc. cbn [String.eqb Ascii.eqb Bool.eqb].
  rewrite (handleHelloCommand_run client), Hn. cbv zeta. rewrite Hp, Hq.
  reflexivity.
Qed.

(** X8.  A mention whose look-up and whose post both succeed: the router
    acknowledges, looks the user up, posts the one reply, in this order,
    and goes back to the [select]. *)
Theorem mention_acknowledged_then_answered
    event ev m req w user w1 now w2 v w3 :
  socketmode.Type_ event = socketmode.EventTypeEventsAPI ->
  socketmode.Data event = socketmode.EventsAPIEventData ev ->
  socketmode.Request_ event = Some req ->
  slackevents.Type_ ev = slackevents.CallbackEvent ->
  slackevents.Data (slackevents.InnerEvent ev) = slackevents.AppMention m ->
  slack.GetUserInfo client (slackevents.User m)
    (socketmode.Ack socketClient req [] w) = (Ok user, w1) ->
  time.Now w1 = (now, w2) ->
  slack.PostMessage client (slackevents.Channel m)
    [slack.MsgOptionAttachments
       [mentionAttachment (slackevents.Text m)
          (time.Format now dateLayout) (slack.Name user)]] w2
  = (Ok v, w3) ->
  onEvent client socketClient event w
  = (Next, w3,
     [ CallAck req [];
       CallGetUserInfo (slackevents.User m);
       CallPostMessage (slackevents.Channel m)
         [slack.MsgOptionAttachments
            [mentionAttachment (slackevents.Text m)
               (time.Format now dateLayout) (slack.Name user)]] ]).
Proof.
  intros Ht Hd Hq Hc Hi Hu Hn Hp.
  rewrite (onEvent_eventsAPI event ev req w Ht Hd Hq).
  rewrite handleEventMessage_run, Hc, Hi.
  cbn [String.eqb Ascii.eqb Bool.eqb slackevents.CallbackEvent].
  rewrite (handleAppMentionEvent_run client), Hu, Hn. cbv zeta.
  fold (mentionAttachment (slackevents.Text m) (time.Format now dateLayout)
          (slack.Name user)).
  rewrite Hp. reflexivity.
Qed.

(** X11.  An interactive callback that carries its request is always
    acknowledged, with no payload and after the log lines; the round
    never ends the process and posts nothing. *)
Theorem interactive_logged_then_acknowledged event interaction req w :
  socketmode.Type_ event = socketmode.EventTypeInteractive ->
  socketmode.Data event = socketmode.InteractionCallbackData interaction ->
  socketmode.Request_ event = Some req ->
  exists logs,
    forallb isLog logs = true
    /\ onEvent client socketClient event w
       = (Next, socketmode.Ack socketClient req [] w,
          (logs ++ [CallAck req []])%list).
Proof.
  intros Ht Hd Hq.
  rewrite (onEvent_interactive event interaction w Ht Hd), Hq.
  rewrite handleInteractiveEvent_run.
  eexists. split; [ | reflexivity ].
  cbn [app forallb isLog andb].
  destruct (slack.InteractionType interaction
            =? slack.InteractionTypeBlockActions)%string;
    [ apply forallb_isLog_lines | reflexivity ].
Qed.

(** ** Errors of the send *)

Lemma Errorf_post err :
  Error (fmt.Errorf "failed to post message: %w" err)
  = "failed to post message: " ++ Error err
  /\ errors_Unwrap (fmt.Errorf "failed to post message: %w" err) = Some err.
Proof.
  split; [ | reflexivity ]. cbn. now rewrite append_nil_r.
Qed.

(** X9.  When Slack refuses the message of [/hello], the handler returns
    an error that reads "failed to post message: " followed by the text of
    Slack's error, and that wraps that error ([errors.Unwrap] gives it
    back); the post was its only call. *)
Theorem hello_send_failure_wraps_cause command w now w1 err w2 :
  time.Now w = (now, w1) ->
  slack.PostMessage client (slack.ChannelID command)
    [slack.MsgOptionAttachments
       [echoAttachment (time.Format now dateLayout)
          (slack.UserName command) (slack.CommandText command)]] w1
  = (Err err, w2) ->
  exists e,
    handleHelloCommand command client w
    = (Some e, w2,
       [CallPostMessage (slack.ChannelID command)
          [slack.MsgOptionAttachments
             [echoAttachment (time.Format now dateLayout)
                (slack.UserName command) (slack.CommandText command)]]])
    /\ Error e = "failed to post message: " ++ Error err
    /\ errors_Unwrap e = Some err.
Proof.
  intros Hn Hp. rewrite (handleHelloCommand_run client), Hn. cbv zeta.
  rewrite Hp. eexists. split; [ reflexivity | apply Errorf_post ].
Qed.

(** X10.  When the look-up succeeded and Slack refuses the reply to a
    mention, the handler returns an error that reads "failed to post
    message: " followed by the text of Slack's error and that wraps it;
    the error of a failed look-up, in contrast, is returned as it is. *)
Theorem mention_send_failure_wraps_cause m w user w1 now w2 err w3 :
  slack.GetUserInfo client (slackevents.User m) w = (Ok user, w1) ->
  time.Now w1 = (now, w2) ->
  slack.PostMessage client (slackevents.Channel m)
    [slack.MsgOptionAttachments
       [mentionAttachment (slackevents.Text m)
          (time.Format now dateLayout) (slack.Name user)]] w2
  = (Err err, w3) ->
  exists e,
    result_of (handleAppMentionEvent m client w) = Some e
    /\ Error e = "failed to post message: " ++ Error err
    /\ errors_Unwrap e = Some err
    /\ result_of (handleEventMessage
                    {| slackevents.Type_ := slackevents.CallbackEvent;
                       slackevents.InnerEvent :=
                         {| slackevents.InnerType := "app_mention";
                            slackevents.Data := slackevents.AppMention m |}
                    |} client w)
       = Some e.
Proof.
  intros Hu Hn Hp. rewrite handleEventMessage_run.
  cbn [slackevents.Type_ slackevents.InnerEvent slackevents.Data
       String.eqb Ascii.eqb Bool.eqb slackevents.CallbackEvent].
  rewrite (handleAppMentionEvent_run client), Hu, Hn. cbv zeta.
  fold (mentionAttachment (slackevents.Text m) (time.Format now dateLayout)
          (slack.Name user)).
  rewrite Hp. eexists. split; [ reflexivity | ].
  destruct (Errorf_post err) as [H1 H2]. now repeat split.
Qed.

(** ** What a mention's text is used for *)

Lemma Contains_ToLower_hello text :
  lowersOutside "hello" ->
  strings.Contains (strings.ToLower lowerCase text) "hello"
  = containsAnyCase text "hello".
Proof.
  intros Hout.
  destruct (containsAnyCase text "hello") eqn:E.
  - now apply (ToLower_contains_complete "hello" text eq_refl).
  - destruct (strings.Contains _ "hello") eqn:C; [ | reflexivity ].
    apply (ToLower_contains_sound "hello" text eq_refl Hout) in C.
    congruence.
Qed.

(** X13.  The text of a mention is used for one thing only, whether it
    contains "hello" in some letter case: two mentions by the same user in
    the same channel that agree on that get the same look-up and the same
    reply, whatever else their texts (and time stamps) say.  The proviso
    is that Unicode's table sends every rune above ASCII up to U+10FFFF
    to a rune that is none of h, e, l and o. *)
Theorem mention_text_only_picks_branch m1 m2 w :
  lowersOutside "hello" ->
  slackevents.User m1 = slackevents.User m2 ->
  slackevents.Channel m1 = slackevents.Channel m2 ->
  containsAnyCase (slackevents.Text m1) "hello"
  = containsAnyCase (slackevents.Text m2) "hello" ->
  handleAppMentionEvent m1 client w = handleAppMentionEvent m2 client w.
Proof.
  intros Hout Hu Hc Ht.
  rewrite !(handleAppMentionEvent_run client).
  rewrite !(Contains_ToLower_hello _ Hout), Hu, Hc, Ht. reflexivity.
Qed.

(** ** How the listener ends *)

Lemma onEvent_outcomes event w :
  result_of (onEvent client socketClient event w) = Next
  \/ result_of (onEvent client socketClient event w) = Exited 1
  \/ (result_of (onEvent client socketClient event w)
      = Panicked nilDereference
      /\ socketmode.Request_ event = None).
Proof.
  destruct (event_sorts event)
    as [[ev [Ht Hd]] | [[c [Ht Hd]] | [[i [Ht Hd]] | Hu]]].
  - destruct (socketmode.Request_ event) as [req |] eqn:Hq.
    + rewrite (onEvent_eventsAPI event ev req w Ht Hd Hq).
      destruct (handleEventMessage ev client _) as [[r w1] t1].
      destruct r; [ right; left | left ]; reflexivity.
    + rewrite (onEvent_eventsAPI_no_request event ev w Ht Hd Hq).
      right; right. now split.
  - rewrite (onEvent_slashCommand event c w Ht Hd).
    destruct (handleSlashCommand c client w) as [[[p r] w1] t1].
    destruct r; [ right; left; reflexivity | ].
    destruct (socketmode.Request_ event);
      [ left; reflexivity | right; right; now split ].
  - rewrite (onEvent_interactive event i w Ht Hd).
    destruct (handleInteractiveEvent i client w) as [[r w1] t1].
    destruct r; [ right; left; reflexivity | ].
    destruct (socketmode.Request_ event);
      [ left; reflexivity | right; right; now split ].
  - destruct (onEvent_unhandled event w Hu) as [t [-> _]]. now left.
Qed.

(** X14.  The listener goroutine returns only when its context was
    cancelled: no event makes it return. *)
Theorem listener_returns_only_on_cancellation picks w :
  result_of (listen client socketClient picks w) = Returned ->
  In CtxDone picks.
Proof.
  unfold listen. revert w.
  induction picks as [| pick picks IH]; intros w H; [ discriminate H | ].
  destruct pick as [| event]; [ now left | ]. right.
  rewrite listenWith_step in H.
  pose proof (onEvent_outcomes event w) as Ho.
  destruct (onEvent client socketClient event w) as [[o w1] t1].
  cbn [result_of fst] in Ho.
  destruct o;
    try (cbn in H; destruct Ho as [Ho | [Ho | [Ho _]]]; discriminate).
  apply (IH w1). destruct (listenWith _ picks w1) as [[o2 w2] t2]. exact H.
Qed.

(** X15.  An event of a handled kind that reaches the listener with its
    data but without its request ([event.Request] is nil) makes the
    goroutine panic with a nil-pointer dereference where the request is
    dereferenced for [Ack]; what the [select] would pick afterwards is
    never handled, and nothing is acknowledged.  An Events-API event
    panics before anything is called or logged, its handler never run; a
    slash command whose handler returned no error panics after the
    handler's calls, and so does an interaction, after the handler's log
    lines: the handler's calls are all the listener made. *)
Theorem missing_request_panics_at_ack event rest w :
  socketmode.Request_ event = None ->
  (forall ev,
     socketmode.Type_ event = socketmode.EventTypeEventsAPI ->
     socketmode.Data event = socketmode.EventsAPIEventData ev ->
     listen client socketClient (Received event :: rest) w
     = (Panicked nilDereference, w, []))
  /\ (forall command,
        socketmode.Type_ event = socketmode.EventTypeSlashCommand ->
        socketmode.Data event = socketmode.SlashCommandData command ->
        snd (result_of (handleSlashCommand command client w)) = None ->
        listen client socketClient (Received event :: rest) w
        = (Panicked nilDereference,
           world_of (handleSlashCommand command client w),
           calls_of (handleSlashCommand command client w))
        /\ acks (calls_of (handleSlashCommand command client w)) = [])
  /\ (forall interaction,
        socketmode.Type_ event = socketmode.EventTypeInteractive ->
        socketmode.Data event
        = socketmode.InteractionCallbackData interaction ->
        listen client socketClient (Received event :: rest) w
        = (Panicked nilDereference, w,
           calls_of (handleInteractiveEvent interaction client w))
        /\ acks (calls_of (handleInteractiveEvent interaction client w))
           = []).
Proof.
  intros Hq. unfold listen. split; [ | split ].
  - intros ev Ht Hd. rewrite listenWith_step.
    now rewrite (onEvent_eventsAPI_no_request event ev w Ht Hd Hq).
  - intros command Ht Hd Herr. split.
    + rewrite listenWith_step, (onEvent_slashCommand event command w Ht Hd).
      destruct (handleSlashCommand command client w) as [[[p r] w1] t1].
      cbn in Herr. subst r. now rewrite Hq.
    + now destruct (handleSlashCommand_modest command w) as [_ [Ha _]].
  - intros interaction Ht Hd. split.
    + rewrite listenWith_step,
        (onEvent_interactive event interaction w Ht Hd).
      rewrite handleInteractiveEvent_run. now rewrite Hq.
    + now destruct (handleInteractiveEvent_modest interaction w)
        as [[_ [Ha _]] _].
Qed.

End MoreFacts.

(** ** The command that posts one message *)

Lemma append_assoc (a b c : string) : (a ++ b) ++ c = a ++ b ++ c.
Proof. induction a as [| x a IH]; cbn; [ reflexivity | now rewrite IH ]. Qed.

Lemma Sprintf_started v :
  fmt.Sprintf "MAVBot %s started" [v] = "MAVBot " ++ v ++ " started".
Proof. reflexivity. Qed.

Lemma Sprintf_sent ts :
  fmt.Sprintf "Message sent at %s" [ts] = "Message sent at " ++ ts.
Proof. cbn. now rewrite append_nil_r. Qed.

(** X12.  The one-message [start] command attempts exactly one post,
    whatever Slack answers.  The channel is the value of
    [SLACK_CHANEL_ID]: the one of the process environment when it is set
    there (even to the empty string), else the one of [.env], else the
    empty string, with no check.  When Slack refuses, the command panics
    with Slack's error and "Message sent at" is never printed; when Slack
    accepts, it prints the time stamp Slack returned, right behind the
    start-up line (neither format ends in a line feed). *)
Theorem poster_posts_once_or_panics
    {World : Type} {clock : time.Clock World}
    (appVersion : string) (New : string -> slack.Client World)
    (timeString : time.Time -> string)
    (envMap : string -> option string) (env : os.Environ) (w : World) :
  let out := poster.startCmd appVersion New timeString envMap env w in
  let channel :=
    match env "SLACK_CHANEL_ID" with
    | Some c => c
    | None => match envMap "SLACK_CHANEL_ID" with
              | Some c => c
              | None => ""
              end
    end in
  let token :=
    match env "SLACK_AUTH_TOKEN" with
    | Some c => c
    | None => match envMap "SLACK_AUTH_TOKEN" with
              | Some c => c
              | None => ""
              end
    end in
  let options :=
    [slack.MsgOptionAttachments
       [poster.attachment (timeString (fst (time.Now w)))]] in
  poster.slackCalls (snd out) = [CallPostMessage channel options]
  /\ match slack.PostMessage (New token) channel options
             (snd (time.Now w)) with
     | (Err err, w2) =>
       fst (fst out) = Panicked (Error err)
       /\ snd (fst out) = w2
       /\ poster.stdout (snd out) = "MAVBot " ++ appVersion ++ " started"
     | (Ok (_, timestamp), w2) =>
       fst (fst out) = Returned
       /\ snd (fst out) = w2
       /\ poster.stdout (snd out)
          = "MAVBot " ++ appVersion ++ " started"
            ++ "Message sent at " ++ timestamp
     end.
Proof.
  cbv zeta. unfold poster.startCmd, os.Getenv, godotenv.Load.
  destruct (time.Now w) as [now w1]. cbn [fst snd].
  set (channel := match env "SLACK_CHANEL_ID" with
                  | Some c => c
                  | None => match envMap "SLACK_CHANEL_ID" with
                            | Some c => c
                            | None => ""
                            end
                  end).
  set (token := match env "SLACK_AUTH_TOKEN" with
                | Some c => c
                | None => match envMap "SLACK_AUTH_TOKEN" with
                          | Some c => c
                          | None => ""
                          end
                end).
  assert (Hc : match match env "SLACK_CHANEL_ID" with
                     | Some v => Some v
                     | None => envMap "SLACK_CHANEL_ID"
                     end with
               | Some v => v
               | None => ""
               end = channel).
  { unfold channel. now destruct (env "SLACK_CHANEL_ID"). }
  assert (Hk : match match env "SLACK_AUTH_TOKEN" with
                     | Some v => Some v
                     | None => envMap "SLACK_AUTH_TOKEN"
                     end with
               | Some v => v
               | None => ""
               end = token).
  { unfold token. now destruct (env "SLACK_AUTH_TOKEN"). }
  rewrite Hc, Hk.
  destruct (slack.PostMessage (New token) channel _ w1) as [[[c ts] | err] w2].
  - cbn [fst snd poster.slackCalls poster.stdout].
    rewrite Sprintf_started, Sprintf_sent.
    repeat split. rewrite append_nil_r.
    change ("MAVBot " ++ appVersion ++ " started"
            ++ "Message sent at " ++ ts)
      with ("MAVBot " ++ (appVersion ++ " started" ++ "Message sent at " ++ ts)).
    now rewrite !append_assoc.
  - cbn [fst snd poster.slackCalls poster.stdout].
    rewrite Sprintf_started. repeat split. now rewrite append_nil_r.
Qed.

(** ** The further theorems at work in the small world *)

(** X2 after a [/hello] command, with another one still queued. *)
Lemma cancellation_stops_listener_witness :
  listen Demo.client Demo.socketClient
    ([Received (Demo.event socketmode.EventTypeSlashCommand
                  (socketmode.SlashCommandData
                     (Demo.slash "/hello" "hi" "C1")))]
     ++ CtxDone
        :: [Received (Demo.event socketmode.EventTypeSlashCommand
                        (socketmode.SlashCommandData
                           (Demo.slash "/hello" "late" "C1")))])
    Demo.world
  = (Returned,
     Trial.posted,
     ([ CallPostMessage "C1"
          [slack.MsgOptionAttachments
             [echoAttachment "2024-02-03 04:05:06" "pavlo" "hi"]];
        CallAck Demo.request [None] ]
      ++ [shutdownLine])%list).
Proof.
  exact (cancellation_stops_listener Demo.client Demo.socketClient
           [Received (Demo.event socketmode.EventTypeSlashCommand
                        (socketmode.SlashCommandData
                           (Demo.slash "/hello" "hi" "C1")))]
           [Received (Demo.event socketmode.EventTypeSlashCommand
                        (socketmode.SlashCommandData
                           (Demo.slash "/hello" "late" "C1")))]
           Demo.world _ _ eq_refl).
Defined.

(** X5 at an Events-API event of type [url_verification], on which the
    handler fails. *)
Lemma events_api_acknowledged_first_witness :
  (exists t,
     calls_of (onEvent Demo.client Demo.socketClient
                 (Demo.event socketmode.EventTypeEventsAPI
                    (socketmode.EventsAPIEventData Demo.urlVerification))
                 Demo.world)
     = CallAck Demo.request [] :: t)
  /\ acks (calls_of (onEvent Demo.client Demo.socketClient
                       (Demo.event socketmode.EventTypeEventsAPI
                          (socketmode.EventsAPIEventData
                             Demo.urlVerification))
                       Demo.world))
     = [(Demo.request, [])].
Proof.
  exact (events_api_acknowledged_first Demo.client Demo.socketClient
           (Demo.event socketmode.EventTypeEventsAPI
              (socketmode.EventsAPIEventData Demo.urlVerification))
           Demo.urlVerification Demo.request Demo.world
           eq_refl eq_refl eq_refl).
Defined.

(** X6 at [/hello] in a channel the bot cannot post to. *)
Lemma failed_slash_command_not_acknowledged_witness :
  snd (result_of (handleSlashCommand (Demo.slash "/hello" "hi" "C9")
                    Demo.client Demo.world))
  = Some (fmt.Errorf "failed to post message: %w"
            (errorString "channel_not_found"))
  /\ result_of (onEvent Demo.client Demo.socketClient
                  (Demo.event socketmode.EventTypeSlashCommand
                     (socketmode.SlashCommandData
                        (Demo.slash "/hello" "hi" "C9")))
                  Demo.world)
     = Exited 1
  /\ acks (calls_of (onEvent Demo.client Demo.socketClient
                       (Demo.event socketmode.EventTypeSlashCommand
                          (socketmode.SlashCommandData
                             (Demo.slash "/hello" "hi" "C9")))
                       Demo.world))
     = [].
Proof.
  split; [ reflexivity | ].
  exact (failed_slash_command_not_acknowledged Demo.client Demo.socketClient
           (Demo.event socketmode.EventTypeSlashCommand
              (socketmode.SlashCommandData (Demo.slash "/hello" "hi" "C9")))
           (Demo.slash "/hello" "hi" "C9") Demo.world
           (fmt.Errorf "failed to post message: %w"
              (errorString "channel_not_found"))
           eq_refl eq_refl eq_refl).
Defined.

(** X7 at [/hello hi] in channel C1. *)
Lemma hello_posted_then_acknowledged_witness :
  onEvent Demo.client Demo.socketClient
    (Demo.event socketmode.EventTypeSlashCommand
       (socketmode.SlashCommandData (Demo.slash "/hello" "hi" "C1")))
    Demo.world
  = (Next,
     Trial.posted,
     [ CallPostMessage "C1"
         [slack.MsgOptionAttachments
            [echoAttachment "2024-02-03 04:05:06" "pavlo" "hi"]];
       CallAck Demo.request [None] ]).
Proof.
  exact (hello_posted_then_acknowledged Demo.client Demo.socketClient
           (Demo.event socketmode.EventTypeSlashCommand
              (socketmode.SlashCommandData (Demo.slash "/hello" "hi" "C1")))
           (Demo.slash "/hello" "hi" "C1") Demo.request Demo.world
           Trial.now Demo.world ("C1", "2024-02-03 04:05:06") Trial.posted
           eq_refl eq_refl eq_refl eq_refl eq_refl eq_refl).
Defined.

(** X8 at the mention "hello" by a user Slack knows. *)
Lemma mention_acknowledged_then_answered_witness :
  onEvent Demo.client Demo.socketClient
    (Demo.event socketmode.EventTypeEventsAPI
       (socketmode.EventsAPIEventData
          (Demo.callback
             (slackevents.AppMention (Demo.mention "U1" "hello" "C1")))))
    Demo.world
  = (Next,
     Trial.posted,
     [ CallAck Demo.request [];
       CallGetUserInfo "U1";
       CallPostMessage "C1"
         [slack.MsgOptionAttachments
            [mentionAttachment "hello" "2024-02-03 04:05:06" "pavlo"]] ]).
Proof.
  exact (mention_acknowledged_then_answered Demo.client Demo.socketClient
           (Demo.event socketmode.EventTypeEventsAPI
              (socketmode.EventsAPIEventData
                 (Demo.callback
                    (slackevents.AppMention
                       (Demo.mention "U1" "hello" "C1")))))
           (Demo.callback
              (slackevents.AppMention (Demo.mention "U1" "hello" "C1")))
           (Demo.mention "U1" "hello" "C1") Demo.request Demo.world
           Trial.pavlo Demo.world Trial.now Demo.world
           ("C1", "2024-02-03 04:05:06") Trial.posted
           eq_refl eq_refl eq_refl eq_refl eq_refl eq_refl eq_refl eq_refl).
Defined.

(** X9 at [/hello] in a channel the bot cannot post to. *)
Lemma hello_send_failure_wraps_cause_witness :
  exists e,
    handleHelloCommand (Demo.slash "/hello" "hi" "C9") Demo.client Demo.world
    = (Some e, Demo.world,
       [CallPostMessage "C9"
          [slack.MsgOptionAttachments
             [echoAttachment "2024-02-03 04:05:06" "pavlo" "hi"]]])
    /\ Error e = "failed to post message: channel_not_found"
    /\ errors_Unwrap e = Some (errorString "channel_not_found").
Proof.
  exact (hello_send_failure_wraps_cause Demo.client
           (Demo.slash "/hello" "hi" "C9") Demo.world
           Trial.now Demo.world (errorString "channel_not_found") Demo.world
           eq_refl eq_refl).
Defined.

(** X10 at a mention in a channel the bot cannot post to. *)
Lemma mention_send_failure_wraps_cause_witness :
  exists e,
    result_of (handleAppMentionEvent (Demo.mention "U1" "hello" "C9")
                 Demo.client Demo.world)
    = Some e
    /\ Error e = "failed to post message: channel_not_found"
    /\ errors_Unwrap e = Some (errorString "channel_not_found").
Proof.
  destruct (mention_send_failure_wraps_cause Demo.client
              (Demo.mention "U1" "hello" "C9") Demo.world
              Trial.pavlo Demo.world Trial.now Demo.world
              (errorString "channel_not_found") Demo.world
              eq_refl eq_refl eq_refl)
    as [e [H1 [H2 [H3 _]]]].
  exists e. repeat split; assumption.
Defined.

(** X11 at the answer to the yes/no question. *)
Lemma interactive_logged_then_acknowledged_witness :
  exists logs,
    forallb isLog logs = true
    /\ onEvent Demo.client Demo.socketClient
         (Demo.event socketmode.EventTypeInteractive
            (socketmode.InteractionCallbackData Demo.answer))
         Demo.world
       = (Next, Demo.world, (logs ++ [CallAck Demo.request []])%list).
Proof.
  exact (interactive_logged_then_acknowledged Demo.client Demo.socketClient
           (Demo.event socketmode.EventTypeInteractive
              (socketmode.InteractionCallbackData Demo.answer))
           Demo.answer Demo.request Demo.world eq_refl eq_refl eq_refl).
Defined.

(** X13 at "hello there" and "Well, HELLO!!". *)
Lemma mention_text_only_picks_branch_witness :
  containsAnyCase "hello there" "hello"
  = containsAnyCase "Well, HELLO!!" "hello"
  /\ handleAppMentionEvent (Demo.mention "U1" "hello there" "C1")
       Demo.client Demo.world
     = handleAppMentionEvent (Demo.mention "U1" "Well, HELLO!!" "C1")
         Demo.client Demo.world.
Proof.
  split; [ reflexivity | ].
  exact (mention_text_only_picks_branch Demo.client
           (Demo.mention "U1" "hello there" "C1")
           (Demo.mention "U1" "Well, HELLO!!" "C1") Demo.world
           demo_lowersOutside eq_refl eq_refl eq_refl).
Defined.

(** X14 at a cancellation behind one event. *)
Lemma listener_returns_only_on_cancellation_witness :
  result_of (listen Demo.client Demo.socketClient
               [Received (Demo.event socketmode.EventTypeHello
                            (socketmode.OtherData "nil"));
                CtxDone]
               Demo.world)
  = Returned
  /\ In CtxDone
       [Received (Demo.event socketmode.EventTypeHello
                    (socketmode.OtherData "nil"));
        CtxDone].
Proof.
  split; [ reflexivity | ].
  exact (listener_returns_only_on_cancellation Demo.client Demo.socketClient
           [Received (Demo.event socketmode.EventTypeHello
                        (socketmode.OtherData "nil"));
            CtxDone]
           Demo.world eq_refl).
Defined.

(** X15 at a slash command that lost its request, with the context
    cancelled right after it: the article form is not sent, and the
    shutdown line is never logged. *)
Lemma missing_request_panics_at_ack_witness :
  socketmode.Request_ Trial.orphan = None
  /\ listen Demo.client Demo.socketClient
       [Received Trial.orphan; CtxDone] Demo.world
     = (Panicked nilDereference, Demo.world, []).
Proof.
  split; [ reflexivity | ].
  exact (proj1 (proj1 (proj2 (missing_request_panics_at_ack Demo.client
                                Demo.socketClient Trial.orphan [CtxDone]
                                Demo.world eq_refl))
                  (Demo.slash "/was-this-article-useful" "x" "C1")
                  eq_refl eq_refl eq_refl)).
Defined.

(** X1, X3, X4 and X12 in the small world. *)
Example three_events_in_order :
  listen Demo.client Demo.socketClient
    [ Received (Demo.event socketmode.EventTypeHello
                  (socketmode.OtherData "nil"));
      Received (Demo.event socketmode.EventTypeEventsAPI
                  (socketmode.EventsAPIEventData
                     (Demo.callback
                        (slackevents.AppMention
                           (Demo.mention "U9" "hello" "C1")))));
      Received (Demo.event socketmode.EventTypeSlashCommand
                  (socketmode.SlashCommandData
                     (Demo.slash "/hello" "late" "C1"))) ]
    Demo.world
  = (Exited 1, Demo.world,
     [ CallAck Demo.request [];
       CallGetUserInfo "U9";
       LogFatal (errorString "user_not_found") ]).
Proof. reflexivity. Qed.

Example poster_without_channel :
  poster.startCmd "v1.0.2" (fun _ => Demo.client) (fun t => t)
    (fun k => if (k =? "SLACK_AUTH_TOKEN")%string then Some "xoxb-1"
              else None)
    (fun _ => None) Demo.world
  = (Panicked "channel_not_found", Demo.world,
     [ poster.Stdout "MAVBot v1.0.2 started";
       poster.Slack
         (CallPostMessage ""
            [slack.MsgOptionAttachments
               [poster.attachment "2024-02-03 04:05:06"]]) ]).
Proof. reflexivity. Qed.

Example poster_environment_wins :
  poster.startCmd "v1.0.2" (fun _ => Demo.client) (fun t => t)
    (fun k => if (k =? "SLACK_CHANEL_ID")%string then Some "C9" else None)
    (fun k => if (k =? "SLACK_CHANEL_ID")%string then Some "C1" else None)
    Demo.world
  = (Returned,
     Trial.posted,
     [ poster.Stdout "MAVBot v1.0.2 started";
       poster.Slack
         (CallPostMessage "C1"
            [slack.MsgOptionAttachments
               [poster.attachment "2024-02-03 04:05:06"]]);
       poster.Stdout "Message sent at 2024-02-03 04:05:06" ]).
Proof. reflexivity. Qed.
